(** * Digital Library backend: loan ledger over a document store

    A shallow embedding of [src/main.py].  The request handlers
    ([add_book], [add_member], [create_loan], [return_book], [list_loans])
    are functions in a state-and-exception monad over the document store;
    a raised exception keeps the writes made before it, as in the source,
    which has no transaction around its store calls.

    What the handlers take from outside is explicit:
    - the clock ([datetime.now(timezone.utc)]) is the argument [now];
    - the identifier the driver generates for an inserted document is the
      argument [gen];
    - [bson.ObjectId] (validity test, parsing, printing) and
      [date.isoformat] are parameters of the development. *)

From Stdlib Require Import ZArith String Ascii Lia.
From stdpp Require Import gmap strings list fin_maps.

Local Open Scope string_scope.
Local Open Scope Z_scope.

(** ** Documents *)

(** The values a document field holds: [None], booleans, integers, strings,
    datetimes and lists of strings.  A datetime is the number of microseconds
    since the start of ordinal day 0, which is how [datetime.__add__] sees
    it (ordinal days, then the time of day). *)
Inductive value : Type :=
| VNone
| VBool (b : bool)
| VInt (n : Z)
| VStr (s : string)
| VTime (t : Z)
| VList (l : list string).

#[global] Instance value_eq_dec : EqDecision value.
Proof. solve_decision. Defined.

(** A document is a Python dict from field names to values.  The [_id] of a
    stored document is its key in the collection. *)
Abbreviation doc := (gmap string value).

(** ** Exceptions *)

Inductive error : Type :=
| HTTPException (status_code : Z) (detail : string)
| TypeError
| OverflowError
| WriteError
| DuplicateKeyError.

#[global] Instance error_eq_dec : EqDecision error.
Proof. solve_decision. Defined.

(** ** Request bodies *)

Record BookIn := mkBookIn {
  title : string;
  author : string;
  isbn : option string;
  published_year : option Z;
  categories : list string;
  description : option string;
  copies_total : Z
}.

Record MemberIn := mkMemberIn {
  name : string;
  email : string;
  membership_id : option string;
  phone : option string
}.

Record LoanIn := mkLoanIn {
  book_id : string;
  member_id : string;
  days : Z
}.

(** A loan request body; [days] is 14 when the body leaves it out. *)
Definition LoanIn_of_body (b m : string) (d : option Z) : LoanIn :=
  mkLoanIn b m (default 14 d).

Definition opt_value {A} (f : A → value) (o : option A) : value :=
  from_option f VNone o.

(** [payload.model_dump()] *)
Definition BookIn_model_dump (p : BookIn) : doc :=
  list_to_map
    [ ("title", VStr (title p));
      ("author", VStr (author p));
      ("isbn", opt_value VStr (isbn p));
      ("published_year", opt_value VInt (published_year p));
      ("categories", VList (categories p));
      ("description", opt_value VStr (description p));
      ("copies_total", VInt (copies_total p)) ].

Definition MemberIn_model_dump (p : MemberIn) : doc :=
  list_to_map
    [ ("name", VStr (name p));
      ("email", VStr (email p));
      ("membership_id", opt_value VStr (membership_id p));
      ("phone", opt_value VStr (phone p)) ].

(** ** Dates and times *)

Definition US_PER_DAY : Z := 86400000000.
Definition MAXORDINAL : Z := 3652059.

(** [timedelta(days=d)], in microseconds. *)
Definition timedelta (d : Z) : error + Z :=
  if Z.abs d >? 999999999 then inl OverflowError else inr (d * US_PER_DAY).

(** [t + delta] on a datetime: the result must fall on an ordinal day;
    [1 .. MAXORDINAL]. *)
Definition datetime_add (t delta : Z) : error + Z :=
  let r := t + delta in
  if (0 <? r / US_PER_DAY) && (r / US_PER_DAY <=? MAXORDINAL)
  then inr r else inl OverflowError.

(** [t.date()], as an ordinal day. *)
Definition date (t : Z) : Z := t / US_PER_DAY.

(** [book.get("copies_available", 0) <= 0]: integers compare, a bool compares
    as 0 or 1, anything else against an int raises [TypeError]. *)
Definition le_zero (v : value) : error + bool :=
  match v with
  | VInt n => inr (n <=? 0)
  | VBool b => inr (negb b)
  | _ => inl TypeError
  end.

(** [$inc] of one field: a missing field is set to the amount, an integer is
    added to, any other value is refused by the store. *)
Definition inc_field (f : string) (delta : Z) (d : doc) : option doc :=
  match d !! f with
  | None => Some (<[f := VInt delta]> d)
  | Some (VInt n) => Some (<[f := VInt (n + delta)]> d)
  | Some _ => None
  end.

Section Library.

(** [bson.ObjectId]: the identifier type, [ObjectId.is_valid] on a string,
    the constructor [ObjectId(s)] and [str(oid)]. *)
Context {oid : Type} `{Countable oid}.
Variable is_valid : string → bool.
Variable ObjectId : string → oid.
Variable oid_str : oid → string.

(** [date.isoformat()] of an ordinal day. *)
Variable isoformat : Z → string.

(** ** The store and the monad of the handlers *)

(** [db]: named collections of documents keyed by [_id]. *)
Abbreviation store := (gmap string (gmap oid doc)).

(** [db[c]]; a collection that was never written to is empty. *)
Definition db (s : store) (c : string) : gmap oid doc := default ∅ (s !! c).

Definition M (A : Type) : Type := store → store * (error + A).

Definition ret {A} (a : A) : M A := λ s, (s, inr a).
Definition raise {A} (e : error) : M A := λ s, (s, inl e).
Definition bind {A B} (k : A → M B) (m : M A) : M B :=
  λ s, match m s with
       | (s', inr a) => k a s'
       | (s', inl e) => (s', inl e)
       end.
Definition lift {A} (r : error + A) : M A := λ s, (s, r).

#[local] Instance M_ret : MRet M := @ret.
#[local] Instance M_bind : MBind M := @bind.

(** *** Store operations used by the handlers *)

(** [db[c].find_one({"_id": k})] *)
Definition find_one (c : string) (k : oid) : M (option doc) :=
  λ s, (s, inr (db s c !! k)).

(** [db[c].insert_one(d)] with generated [_id] [k]. *)
Definition insert_one (c : string) (k : oid) (d : doc) : M unit :=
  λ s, match db s c !! k with
       | Some _ => (s, inl DuplicateKeyError)
       | None => (<[c := <[k := d]> (db s c)]> s, inr tt)
       end.

(** [db[c].update_one({"_id": k}, {"$set": fields})]; no match, no change. *)
Definition update_one_set (c : string) (k : oid) (fields : doc) : M unit :=
  λ s, match db s c !! k with
       | None => (s, inr tt)
       | Some d => (<[c := <[k := fields ∪ d]> (db s c)]> s, inr tt)
       end.

(** [db[c].update_one({"_id": k}, {"$inc": {f: delta}})] *)
Definition update_one_inc (c : string) (k : oid) (f : string) (delta : Z)
  : M unit :=
  λ s, match db s c !! k with
       | None => (s, inr tt)
       | Some d =>
           match inc_field f delta d with
           | Some d' => (<[c := <[k := d']> (db s c)]> s, inr tt)
           | None => (s, inl WriteError)
           end
       end.

(** Modelled from the spec: [create_document] of the [database] module, which
    is not among the sources.  It inserts the record and returns the new
    identifier as a string. *)
Definition create_document (c : string) (data : doc) (gen : oid) : M string :=
  _ ← insert_one c gen data;
  ret (oid_str gen).

(** Modelled from the spec: [get_documents] of the [database] module, which
    is not among the sources.  It returns all records of the collection that
    match the filter; the filter is a document of required field values and
    defaults to the empty one, which matches all. *)
Definition get_documents (c : string) (filter_dict : doc)
  : M (list (oid * doc)) :=
  λ s, (s, inr (map_to_list
                  (filter (λ kd, bool_decide (filter_dict ⊆ kd.2)) (db s c)))).

(** *** main.py *)

(** A found document carries its [_id], so [not doc] is false for it. *)
Definition _get_by_id (collection id_str : string) : M (oid * doc) :=
  if negb (is_valid id_str) then raise (HTTPException 400 "Invalid id")
  else
    found ← find_one collection (ObjectId id_str);
    match found with
    | None => raise (HTTPException 404 (collection ++ " not found"))
    | Some d => ret (ObjectId id_str, d)
    end.

Definition add_book (payload : BookIn) (gen : oid) : M doc :=
  let data := BookIn_model_dump payload in
  let data := <["copies_available" := VInt (copies_total payload)]> data in
  book_id ← create_document "book" data gen;
  ret {[ "id" := VStr book_id ]}.

Definition add_member (payload : MemberIn) (gen : oid) : M doc :=
  member_id ← create_document "member" (MemberIn_model_dump payload) gen;
  ret {[ "id" := VStr member_id ]}.

Definition loan_data (payload : LoanIn) (now due : Z) : doc :=
  list_to_map
    [ ("book_id", VStr (book_id payload));
      ("member_id", VStr (member_id payload));
      ("loan_date", VTime now);
      ("due_date", VStr (isoformat (date due)));
      ("status", VStr "borrowed") ].

Definition create_loan (payload : LoanIn) (now : Z) (gen : oid) : M doc :=
  '(book_key, book) ← _get_by_id "book" (book_id payload);
  none_left ← lift (le_zero (default (VInt 0) (book !! "copies_available")));
  if (none_left : bool) then raise (HTTPException 400 "No copies available")
  else
    _ ← _get_by_id "member" (member_id payload);
    delta ← lift (timedelta (days payload));
    due ← lift (datetime_add now delta);
    loan_id ← create_document "loan" (loan_data payload now due) gen;
    _ ← update_one_inc "book" book_key "copies_available" (-1);
    ret {[ "id" := VStr loan_id ]}.

(** [ObjectId.is_valid(loan.get("book_id"))]: only a string can be valid; the
    result is the string to hand to [ObjectId(...)]. *)
Definition is_valid_field (v : option value) : option string :=
  match v with
  | Some (VStr s) => if is_valid s then Some s else None
  | _ => None
  end.

(** The [$set] document of [return_book]. *)
Definition returned_fields (now : Z) : doc :=
  <["status" := VStr "returned"]> {[ "return_date" := VTime now ]}.

Definition return_book (loan_id : string) (now : Z) : M doc :=
  '(loan_key, loan) ← _get_by_id "loan" loan_id;
  if bool_decide (loan !! "status" = Some (VStr "returned"))
  then raise (HTTPException 400 "Already returned")
  else
    _ ← update_one_set "loan" loan_key (returned_fields now);
    _ ← match is_valid_field (loan !! "book_id") with
        | Some b => update_one_inc "book" (ObjectId b) "copies_available" 1
        | None => ret tt
        end;
    ret {[ "status" := VStr "ok" ]}.

(** The acknowledgment of [return_book], [{"status": "ok"}]. *)
Definition ok_response : doc := {[ "status" := VStr "ok" ]}.

(** The store after the loan under [lk] was marked returned at [now]. *)
Definition mark_returned (s : store) (lk : oid) (l : doc) (now : Z) : store :=
  <["loan" := <[lk := returned_fields now ∪ l]> (db s "loan")]> s.

Definition list_loans (status : option string) : M (list doc) :=
  let filter_dict : doc :=
    match status with
    | Some st => if bool_decide (st = "") then ∅ else {[ "status" := VStr st ]}
    | None => ∅
    end in
  loans ← get_documents "loan" filter_dict;
  ret ((λ kd : oid * doc, <["_id" := VStr (oid_str kd.1)]> kd.2) <$> loans).

(** ** The service as a state machine *)

(** A request with what it takes from outside: the clock reading and the
    identifier generated for the inserted document.  The listing endpoints
    write nothing; [ListLoans] stands for them. *)
Inductive request : Type :=
| AddBook (payload : BookIn) (gen : oid)
| AddMember (payload : MemberIn) (gen : oid)
| CreateLoan (payload : LoanIn) (now : Z) (gen : oid)
| ReturnBook (loan_id : string) (now : Z)
| ListLoans (status : option string).

(** The store after a request, whether it was answered or raised. *)
Definition handle (r : request) (s : store) : store :=
  match r with
  | AddBook payload gen => (add_book payload gen s).1
  | AddMember payload gen => (add_member payload gen s).1
  | CreateLoan payload now gen => (create_loan payload now gen s).1
  | ReturnBook loan_id now => (return_book loan_id now s).1
  | ListLoans status => (list_loans status s).1
  end.

(** The stores the service reaches from the empty one by requests that
    [admitted] lets through. *)
Inductive reachable (admitted : request → Prop) : store → Prop :=
| reachable_empty : reachable admitted ∅
| reachable_step s r :
    reachable admitted s → admitted r → reachable admitted (handle r s).

Definition any_request (r : request) : Prop := True.

(** Requests whose new books have [copies_total >= 0], the bound that
    [schemas.Book] declares and [BookIn] leaves out. *)
Definition nonneg_copies (r : request) : Prop :=
  match r with
  | AddBook payload _ => 0 ≤ copies_total payload
  | _ => True
  end.

(** A returned loan has its return date. *)
Definition returned_has_date (l : doc) : Prop :=
  l !! "status" = Some (VStr "returned") →
  ∃ t, l !! "return_date" = Some (VTime t).

(** [0 <= copies_available <= copies_total] on a book record. *)
Definition copies_in_range (b : doc) : Prop :=
  ∃ a t, b !! "copies_available" = Some (VInt a) ∧
         b !! "copies_total" = Some (VInt t) ∧ 0 ≤ a ≤ t.

(** The loan [l] is out on the book [bk]: it is not returned and its
    [book_id] is a well-formed identifier of [bk]. *)
Definition borrows (bk : oid) (l : doc) : bool :=
  bool_decide (l !! "status" ≠ Some (VStr "returned"))
  && match is_valid_field (l !! "book_id") with
     | Some bs => bool_decide (ObjectId bs = bk)
     | None => false
     end.

(** The number of loans out on the book [bk]. *)
Definition loans_out (loans : gmap oid doc) (bk : oid) : nat :=
  size (filter (λ kl : oid * doc, borrows bk kl.2 = true) loans).

Definition outstanding (s : store) (bk : oid) : Z :=
  Z.of_nat (loans_out (db s "loan") bk).

(** The ledger balances: each book's free copies and loans out add up to its
    total, and every loan names a book of the catalog. *)
Definition ledger_inv (s : store) : Prop :=
  (∀ k b, db s "book" !! k = Some b →
     ∃ a t, b !! "copies_available" = Some (VInt a) ∧
            b !! "copies_total" = Some (VInt t) ∧
            0 ≤ a ∧ a + outstanding s k = t)
  ∧ (∀ k l, db s "loan" !! k = Some l →
       ∃ bs, is_valid_field (l !! "book_id") = Some bs ∧
             is_Some (db s "book" !! ObjectId bs)).

(** ** The rest of the service *)

(** [GET /api/members]: all members, each with its [_id] as a string. *)
Definition list_members : M (list doc) :=
  members ← get_documents "member" ∅;
  ret ((λ kd : oid * doc, <["_id" := VStr (oid_str kd.1)]> kd.2) <$> members).

(** The store after a sequence of requests, served first to last. *)
Definition run_requests (rs : list request) (s : store) : store :=
  foldl (λ s' r, handle r s') s rs.

(** The two states a loan record is in: borrowed with no return date, or
    returned with one. *)
Definition loan_state_ok (l : doc) : Prop :=
  (l !! "status" = Some (VStr "borrowed") ∧ l !! "return_date" = None)
  ∨ (l !! "status" = Some (VStr "returned")
     ∧ ∃ t, l !! "return_date" = Some (VTime t)).

(** A loan record names a book and a member of the store by well-formed
    identifiers. *)
Definition loan_refs_ok (s : store) (l : doc) : Prop :=
  ∃ bs ms,
    l !! "book_id" = Some (VStr bs) ∧ is_valid bs = true ∧
    is_Some (db s "book" !! ObjectId bs) ∧
    l !! "member_id" = Some (VStr ms) ∧ is_valid ms = true ∧
    is_Some (db s "member" !! ObjectId ms).

(** Each book's free copies and loans out add up to its total. *)
Definition ledger_balance (s : store) : Prop :=
  ∀ k b, db s "book" !! k = Some b →
    ∃ a t, b !! "copies_available" = Some (VInt a) ∧
           b !! "copies_total" = Some (VInt t) ∧
           a + outstanding s k = t.

(** How the record [d] of collection [c] may differ, as [d'], after a
    request: a book in [copies_available] only, a loan in [status] and
    [return_date] only and not at all once it is returned, any other record
    not at all. *)
Definition record_kept (c : string) (d d' : doc) : Prop :=
  if decide (c = "book") then
    ∀ f, f ≠ "copies_available" → d' !! f = d !! f
  else if decide (c = "loan") then
    (∀ f, f ≠ "status" → f ≠ "return_date" → d' !! f = d !! f) ∧
    (d !! "status" = Some (VStr "returned") → d' = d)
  else d' = d.

(** Every record of [s] is still in [s'], changed at most as [record_kept]
    allows. *)
Definition store_kept (s s' : store) : Prop :=
  ∀ c k d, db s c !! k = Some d →
    ∃ d', db s' c !! k = Some d' ∧ record_kept c d d'.

(** [list_loans] with [status] lists a record whose [_id] is [id]. *)
Definition listed_under (status id : string) (s : store) : Prop :=
  ∃ loans l, list_loans (Some status) s = (s, inr loans) ∧
             l ∈ loans ∧ l !! "_id" = Some (VStr id).

(** The conditions under which [create_loan] goes through. *)
Definition loan_allowed (payload : LoanIn) (now : Z) (gen : oid) (s : store)
  : Prop :=
  is_valid (book_id payload) = true ∧
  (∃ b n, db s "book" !! ObjectId (book_id payload) = Some b ∧
          b !! "copies_available" = Some (VInt n) ∧ 0 < n) ∧
  is_valid (member_id payload) = true ∧
  is_Some (db s "member" !! ObjectId (member_id payload)) ∧
  Z.abs (days payload) ≤ 999999999 ∧
  0 < date (now + days payload * US_PER_DAY) ≤ MAXORDINAL ∧
  db s "loan" !! gen = None.

End Library.

(** ** The library parameters, concretely

    An instance of the parameters, for running the model: identifiers are
    kept in their printed form, 24 lower-case hexadecimal digits; a string
    of 24 hexadecimal digits of either case is valid and denotes the
    identifier that prints as its lower-case form.  Dates print as
    [YYYY-MM-DD] of the proleptic Gregorian calendar, computed the way
    [datetime._ord2ymd] does. *)
Module Sample.

Definition is_hex (a : ascii) : bool :=
  let n := nat_of_ascii a in
  ((48 <=? n) && (n <=? 57) || (65 <=? n) && (n <=? 70)
   || (97 <=? n) && (n <=? 102))%nat.

Definition lower (a : ascii) : ascii :=
  let n := nat_of_ascii a in
  if ((65 <=? n) && (n <=? 90))%nat then ascii_of_nat (n + 32) else a.

Fixpoint string_forallb (f : ascii → bool) (s : string) : bool :=
  match s with
  | EmptyString => true
  | String a s' => f a && string_forallb f s'
  end.

Fixpoint string_map (f : ascii → ascii) (s : string) : string :=
  match s with
  | EmptyString => EmptyString
  | String a s' => String (f a) (string_map f s')
  end.

Definition is_valid (s : string) : bool :=
  (String.length s =? 24)%nat && string_forallb is_hex s.

Definition ObjectId (s : string) : string := string_map lower s.

Definition oid_str (k : string) : string := k.

(** [n] in decimal, as [w] digits. *)
Fixpoint zfill (w : nat) (n : Z) : string :=
  match w with
  | O => ""
  | S w' =>
      zfill w' (n / 10)
      +:+ String (ascii_of_nat (48 + Z.to_nat (n mod 10))) ""
  end.

Definition days_before_month (month : Z) : Z :=
  nth (Z.to_nat month) [0; 0; 31; 59; 90; 120; 151; 181; 212; 243; 273; 304; 334] 0.

Definition days_in_month (month : Z) : Z :=
  nth (Z.to_nat month) [0; 31; 28; 31; 30; 31; 30; 31; 31; 30; 31; 30; 31] 0.

Definition ord2ymd (ordinal : Z) : Z * Z * Z :=
  let n := ordinal - 1 in
  let n400 := n / 146097 in
  let n := n mod 146097 in
  let n100 := n / 36524 in
  let n := n mod 36524 in
  let n4 := n / 1461 in
  let n := n mod 1461 in
  let n1 := n / 365 in
  let n := n mod 365 in
  let year := n400 * 400 + 1 + n100 * 100 + n4 * 4 + n1 in
  if (n1 =? 4) || (n100 =? 4) then (year - 1, 12, 31)
  else
    let leapyear := (n1 =? 3) && (negb (n4 =? 24) || (n100 =? 3)) in
    let month := Z.shiftr (n + 50) 5 in
    let preceding :=
      days_before_month month + (if (2 <? month) && leapyear then 1 else 0) in
    if n <? preceding then
      let month := month - 1 in
      let preceding :=
        preceding
        - (days_in_month month + (if (month =? 2) && leapyear then 1 else 0)) in
      (year, month, n - preceding + 1)
    else (year, month, n - preceding + 1).

Definition isoformat (ordinal : Z) : string :=
  let '(y, m, d) := ord2ymd ordinal in
  zfill 4 y +:+ "-" +:+ zfill 2 m +:+ "-" +:+ zfill 2 d.

(** The ordinal day of 2024-01-01 and a clock reading at noon of that day. *)
Definition day_2024_01_01 : Z := 738886.
Definition noon : Z := day_2024_01_01 * US_PER_DAY + 43200000000.

(** *** A run of the service

    One book with one copy, one member, a loan of the book for 7 days and
    its return the next day. *)

Definition run : request (oid := string) → gmap string (gmap string doc)
                 → gmap string (gmap string doc) :=
  handle is_valid ObjectId oid_str isoformat.

Definition book1 : string := "65a1b2c3d4e5f60718293a01".
Definition member1 : string := "65a1b2c3d4e5f60718293a02".
Definition loan1 : string := "65a1b2c3d4e5f60718293a03".
Definition loan2 : string := "65a1b2c3d4e5f60718293a04".

Definition dune : BookIn := mkBookIn "Dune" "Herbert" None None [] None 1.
Definition ann : MemberIn := mkMemberIn "Ann" "ann@example.org" None None.
Definition borrow : LoanIn := LoanIn_of_body book1 member1 (Some 7).

Definition s_book : gmap string (gmap string doc) := run (AddBook dune book1) ∅.
Definition s_member := run (AddMember ann member1) s_book.
Definition s_loaned := run (CreateLoan borrow noon loan1) s_member.
Definition s_returned := run (ReturnBook loan1 (noon + US_PER_DAY)) s_loaned.

(** The book record of [dune] with [n] copies available. *)
Definition dune_doc (n : Z) : doc :=
  <["copies_available" := VInt n]> (BookIn_model_dump dune).

(** A store whose one loan carries a [book_id] that is no identifier. *)
Definition stray_loan : doc :=
  <["book_id" := VStr "not-an-id"]> {[ "status" := VStr "borrowed" ]}.
Definition s_stray : gmap string (gmap string doc) :=
  <["loan" := {[ loan2 := stray_loan ]}]> s_book.

(** Request bodies that [schemas.py] would refuse and [main.py] takes. *)
Definition minus_one_copy : BookIn :=
  mkBookIn "Dune" "Herbert" None None [] None (-1).
Definition no_email : MemberIn := mkMemberIn "Ann" "not-an-email" None None.

(** The requests of the run after the book was added, and two requests that
    come too late: a second return and a loan of the returned book under a
    new identifier. *)
Definition after_book : list (request (oid := string)) :=
  [ AddMember ann member1;
    CreateLoan borrow noon loan1;
    ReturnBook loan1 (noon + US_PER_DAY) ].
Definition afterwards : list (request (oid := string)) :=
  [ ReturnBook loan1 (noon + 2 * US_PER_DAY);
    CreateLoan borrow (noon + 3 * US_PER_DAY) loan2 ].

(** The loan record of the run, as stored and as marked returned. *)
Definition loan1_doc : doc :=
  loan_data isoformat borrow noon (noon + 7 * US_PER_DAY).
Definition loan1_returned : doc :=
  returned_fields (noon + US_PER_DAY) ∪ loan1_doc.

(** A well-formed identifier that names nothing in the run. *)
Definition nobody : string := "65a1b2c3d4e5f60718293aff".

(** A loan for more days than [timedelta] takes. *)
Definition forever : LoanIn := mkLoanIn book1 member1 1000000000.

End Sample.

(** ** Running the handlers: basic facts *)

(** Unfold the monad's plumbing. *)
Ltac unfold_M := unfold mbind, M_bind, bind, mret, M_ret, ret, raise, lift in *.

Section Facts.

Context {oid : Type} `{Countable oid}.
Variable is_valid : string → bool.
Variable ObjectId : string → oid.
Variable oid_str : oid → string.
Variable isoformat : Z → string.

Implicit Types (s : gmap string (gmap oid doc)) (c : string) (k : oid) (d : doc).

Lemma db_insert_eq s c m : db (<[c := m]> s) c = m.
Proof. unfold db. by rewrite lookup_insert_eq. Qed.

Lemma db_insert_ne s c c' m : c ≠ c' → db (<[c := m]> s) c' = db s c'.
Proof. intros Hne. unfold db. by rewrite lookup_insert_ne. Qed.

Lemma get_by_id_ok s c id_str d :
  is_valid id_str = true →
  db s c !! ObjectId id_str = Some d →
  _get_by_id is_valid ObjectId c id_str s = (s, inr (ObjectId id_str, d)).
Proof.
  intros Hv Hd. unfold _get_by_id. rewrite Hv. cbn.
  unfold_M. unfold find_one. by rewrite Hd.
Qed.

Lemma get_by_id_inv s s' c id_str k d :
  _get_by_id is_valid ObjectId c id_str s = (s', inr (k, d)) →
  s' = s ∧ is_valid id_str = true ∧ k = ObjectId id_str ∧ db s c !! k = Some d.
Proof.
  unfold _get_by_id. destruct (is_valid id_str) eqn:Hv; cbn; [|by inversion 1].
  unfold_M. unfold find_one. destruct (db s c !! ObjectId id_str) eqn:Hd; cbn;
    inversion 1; by subst.
Qed.

Lemma get_by_id_state s c id_str :
  (_get_by_id is_valid ObjectId c id_str s).1 = s.
Proof.
  unfold _get_by_id. destruct (is_valid id_str); cbn; [|done].
  unfold_M. unfold find_one. by destruct (db s c !! ObjectId id_str).
Qed.

(** *** [create_loan] *)

Lemma loan_data_book_id payload now due :
  loan_data isoformat payload now due !! "book_id" = Some (VStr (book_id payload)).
Proof. reflexivity. Qed.

Lemma loan_data_status payload now due :
  loan_data isoformat payload now due !! "status" = Some (VStr "borrowed").
Proof. reflexivity. Qed.

Lemma loan_data_loan_date payload now due :
  loan_data isoformat payload now due !! "loan_date" = Some (VTime now).
Proof. reflexivity. Qed.

Lemma loan_data_due_date payload now due :
  loan_data isoformat payload now due !! "due_date"
    = Some (VStr (isoformat (date due))).
Proof. reflexivity. Qed.

Lemma loan_data_return_date payload now due :
  loan_data isoformat payload now due !! "return_date" = None.
Proof. reflexivity. Qed.

(** What a successful [create_loan] did: the book was found with a positive
    integer [copies_available], the member was found, the loan went into the
    loan collection under the generated identifier and the book's counter
    went down by one. *)
Lemma create_loan_inv s s1 payload now gen resp :
  create_loan is_valid ObjectId oid_str isoformat payload now gen s
    = (s1, inr resp) →
  ∃ b n m,
    let bk := ObjectId (book_id payload) in
    let s_loan :=
      <["loan" := <[gen := loan_data isoformat payload now
                            (now + days payload * US_PER_DAY)]>
                    (db s "loan")]> s in
    is_valid (book_id payload) = true ∧
    db s "book" !! bk = Some b ∧
    b !! "copies_available" = Some (VInt n) ∧ 0 < n ∧
    is_valid (member_id payload) = true ∧
    db s "member" !! ObjectId (member_id payload) = Some m ∧
    Z.abs (days payload) ≤ 999999999 ∧
    0 < date (now + days payload * US_PER_DAY) ≤ MAXORDINAL ∧
    db s "loan" !! gen = None ∧
    s1 = <["book" := <[bk := <["copies_available" := VInt (n - 1)]> b]>
                       (db s "book")]> s_loan ∧
    resp = {[ "id" := VStr (oid_str gen) ]}.
Proof.
  unfold create_loan. unfold_M.
  destruct (_get_by_id _ _ "book" _ s) as [s0 [e|[bk b]]] eqn:Hb; [by inversion 1|].
  apply get_by_id_inv in Hb as (-> & Hvb & -> & Hb).
  destruct (le_zero _) as [e|[]] eqn:Hle; [by inversion 1..|].
  destruct (_get_by_id _ _ "member" _ s) as [s0 [e|[mk m]]] eqn:Hm; [by inversion 1|].
  apply get_by_id_inv in Hm as (-> & Hvm & -> & Hm).
  unfold timedelta. destruct (Z.abs _ >? _) eqn:Habs; [by inversion 1|].
  unfold datetime_add. destruct (_ && _) eqn:Hrange; [|by inversion 1].
  unfold create_document, insert_one. unfold_M.
  destruct (db s "loan" !! gen) eqn:Hgen; [by inversion 1|].
  unfold update_one_inc. rewrite db_insert_ne by done. rewrite Hb.
  destruct (inc_field _ _ b) as [b'|] eqn:Hinc; [|by inversion 1].
  intros [= <- <-].
  unfold inc_field in Hinc.
  destruct (b !! "copies_available") as [[| |n| | |]|] eqn:Hca;
    simplify_eq/=.
  exists b, n, m. apply andb_prop in Hrange as [?%Z.ltb_lt ?%Z.leb_le].
  apply Z.leb_gt in Hle. rewrite Z.gtb_ltb in Habs. apply Z.ltb_ge in Habs.
  repeat split; try done; try lia.
Qed.

(** *** [return_book] *)

(** [return_book] on a loan that is found and not yet returned. *)
Lemma return_book_run s loan_id now l :
  is_valid loan_id = true →
  db s "loan" !! ObjectId loan_id = Some l →
  l !! "status" ≠ Some (VStr "returned") →
  return_book is_valid ObjectId loan_id now s =
    let s_l := mark_returned s (ObjectId loan_id) l now in
    match is_valid_field is_valid (l !! "book_id") with
    | None => (s_l, inr ok_response)
    | Some bs =>
        match db s "book" !! ObjectId bs with
        | None => (s_l, inr ok_response)
        | Some b =>
            match inc_field "copies_available" 1 b with
            | Some b' =>
                (<["book" := <[ObjectId bs := b']> (db s "book")]> s_l,
                 inr ok_response)
            | None => (s_l, inl WriteError)
            end
        end
    end.
Proof.
  intros Hv Hl Hst. unfold return_book. unfold_M.
  rewrite (get_by_id_ok _ _ _ _ Hv Hl).
  rewrite bool_decide_eq_false_2 by done.
  unfold update_one_set. rewrite Hl.
  destruct (is_valid_field _ _) as [bs|]; [|done].
  unfold update_one_inc, mark_returned. rewrite db_insert_ne by done.
  destruct (db s "book" !! ObjectId bs) as [b|]; [|done].
  by destruct (inc_field _ _ b).
Qed.

Lemma return_book_returned s loan_id now l :
  is_valid loan_id = true →
  db s "loan" !! ObjectId loan_id = Some l →
  l !! "status" = Some (VStr "returned") →
  return_book is_valid ObjectId loan_id now s
    = (s, inl (HTTPException 400 "Already returned")).
Proof.
  intros Hv Hl Hst. unfold return_book. unfold_M.
  rewrite (get_by_id_ok _ _ _ _ Hv Hl).
  by rewrite bool_decide_eq_true_2.
Qed.

(** A successful [return_book] found its loan, not yet returned. *)
Lemma return_book_inv s s' loan_id now resp :
  return_book is_valid ObjectId loan_id now s = (s', inr resp) →
  ∃ l, is_valid loan_id = true ∧
       db s "loan" !! ObjectId loan_id = Some l ∧
       l !! "status" ≠ Some (VStr "returned").
Proof.
  unfold return_book. unfold_M.
  destruct (_get_by_id _ _ "loan" _ s) as [s0 [e|[lk l]]] eqn:Hl; [by inversion 1|].
  apply get_by_id_inv in Hl as (-> & Hv & -> & Hl).
  case_bool_decide; [by inversion 1|]. eauto.
Qed.

(** ** The claims on single requests *)

(** C1: on a book whose stored [copies_available] is at most 0 (a missing
    field reads as 0), [create_loan] raises HTTP 400 "No copies available"
    whatever the member id is and whatever the member collection holds; the
    store is left as it was, so no loan is created and no book field
    changes. *)
Theorem create_loan_no_copies s bid mid (dy : Z) now gen b n :
  is_valid bid = true →
  db s "book" !! ObjectId bid = Some b →
  default (VInt 0) (b !! "copies_available") = VInt n →
  n ≤ 0 →
  create_loan is_valid ObjectId oid_str isoformat (mkLoanIn bid mid dy) now gen s
    = (s, inl (HTTPException 400 "No copies available")).
Proof.
  intros Hv Hb Hca Hn. unfold create_loan. unfold_M. cbn [book_id].
  rewrite (get_by_id_ok _ _ _ _ Hv Hb), Hca. cbn [le_zero].
  by rewrite (proj2 (Z.leb_le n 0) Hn).
Qed.

(** Setting a counter back to the value it had gives the document back. *)
Lemma insert_back (b : doc) f v w :
  b !! f = Some v → <[f := v]> (<[f := w]> b) = b.
Proof. intros Hf. rewrite insert_insert_eq. by apply insert_id. Qed.

(** C2: a successful [create_loan] followed at once by [return_book] on the
    loan it created: the loan lowered the book's [copies_available] from [n]
    to [n - 1], the return succeeds and raises it back to [n]; the whole book
    collection is as before the loan. *)
Theorem loan_then_return_restores s s1 payload now gen resp now' :
  is_valid (oid_str gen) = true →
  ObjectId (oid_str gen) = gen →
  create_loan is_valid ObjectId oid_str isoformat payload now gen s
    = (s1, inr resp) →
  ∃ b n s2,
    resp = {[ "id" := VStr (oid_str gen) ]} ∧
    db s "book" !! ObjectId (book_id payload) = Some b ∧
    b !! "copies_available" = Some (VInt n) ∧
    db s1 "book" !! ObjectId (book_id payload)
      = Some (<["copies_available" := VInt (n - 1)]> b) ∧
    return_book is_valid ObjectId (oid_str gen) now' s1 = (s2, inr ok_response) ∧
    db s2 "book" !! ObjectId (book_id payload) = Some b ∧
    db s2 "book" = db s "book".
Proof.
  intros Hgv Hgk Hloan.
  destruct (create_loan_inv _ _ _ _ _ _ Hloan)
    as (b & n & m & Hvb & Hb & Hca & Hn & _ & _ & _ & _ & Hfresh & -> & ->).
  set (due := now + days payload * US_PER_DAY).
  set (bk := ObjectId (book_id payload)) in *.
  set (l := loan_data isoformat payload now due).
  set (b1 := <["copies_available" := VInt (n - 1)]> b).
  set (s_loan := <["loan" := <[gen := l]> (db s "loan")]> s).
  set (s1 := <["book" := <[bk := b1]> (db s "book")]> s_loan).
  assert (Hl1 : db s1 "loan" !! ObjectId (oid_str gen) = Some l).
  { rewrite Hgk. unfold s1, s_loan.
    rewrite db_insert_ne, db_insert_eq by done. apply lookup_insert_eq. }
  assert (Hb1 : db s1 "book" !! bk = Some b1).
  { unfold s1. rewrite db_insert_eq. apply lookup_insert_eq. }
  assert (Hst : l !! "status" ≠ Some (VStr "returned")).
  { unfold l. by rewrite loan_data_status. }
  assert (Hbid : is_valid_field is_valid (l !! "book_id") = Some (book_id payload)).
  { unfold l. rewrite loan_data_book_id. cbn. by rewrite Hvb. }
  pose proof (return_book_run s1 (oid_str gen) now' l Hgv Hl1 Hst) as Hret.
  cbv zeta in Hret. rewrite Hbid in Hret. fold bk in Hret. rewrite Hb1 in Hret.
  assert (Hinc : inc_field "copies_available" 1 b1 = Some b).
  { unfold inc_field, b1. rewrite lookup_insert_eq.
    replace (n - 1 + 1) with n by lia. f_equal. by apply insert_back. }
  rewrite Hinc in Hret.
  eexists b, n, _. split_and!; [done..|exact Hret| |].
  - rewrite db_insert_eq. apply lookup_insert_eq.
  - rewrite db_insert_eq. unfold mark_returned.
    unfold s1 at 1. rewrite db_insert_eq, insert_insert_eq. by apply insert_id.
Qed.

Lemma returned_fields_status now :
  returned_fields now !! "status" = Some (VStr "returned").
Proof. reflexivity. Qed.

Lemma returned_fields_return_date now :
  returned_fields now !! "return_date" = Some (VTime now).
Proof. reflexivity. Qed.

Lemma returned_fields_other now f :
  f ≠ "status" → f ≠ "return_date" → returned_fields now !! f = None.
Proof.
  intros H1 H2. unfold returned_fields.
  rewrite lookup_insert_ne by done. by rewrite lookup_singleton_ne.
Qed.

(** The loan collection after a successful [return_book]. *)
Lemma return_book_loans s s' loan_id now resp l :
  db s "loan" !! ObjectId loan_id = Some l →
  return_book is_valid ObjectId loan_id now s = (s', inr resp) →
  db s' "loan" = <[ObjectId loan_id := returned_fields now ∪ l]> (db s "loan").
Proof.
  intros Hl Hret.
  destruct (return_book_inv _ _ _ _ _ Hret) as (l0 & Hv & Hl0 & Hst).
  assert (l0 = l) as -> by congruence.
  rewrite (return_book_run _ _ now _ Hv Hl Hst) in Hret. cbv zeta in Hret.
  unfold mark_returned in Hret.
  repeat case_match; simplify_eq;
    rewrite ?db_insert_ne by done; by rewrite db_insert_eq.
Qed.

(** C4: [return_book] on a loan whose status is already "returned" raises
    HTTP 400 "Already returned" and leaves the store, hence the loan record
    and the book's [copies_available], as it was; and after a successful
    [return_book] the loan is in that state, so a second [return_book] on the
    same loan fails that way. *)
Theorem return_book_not_idempotent s loan_id now l :
  is_valid loan_id = true →
  db s "loan" !! ObjectId loan_id = Some l →
  (l !! "status" = Some (VStr "returned") →
   return_book is_valid ObjectId loan_id now s
     = (s, inl (HTTPException 400 "Already returned")))
  ∧ (∀ s1 resp now',
       return_book is_valid ObjectId loan_id now s = (s1, inr resp) →
       return_book is_valid ObjectId loan_id now' s1
         = (s1, inl (HTTPException 400 "Already returned"))).
Proof.
  intros Hv Hl. split.
  - by apply return_book_returned.
  - intros s1 resp now' Hret.
    apply return_book_returned with (l := returned_fields now ∪ l); [done| |].
    + rewrite (return_book_loans _ _ _ _ _ _ Hl Hret). apply lookup_insert_eq.
    + apply lookup_union_Some_l, returned_fields_status.
Qed.

(** C5: [return_book] on a loan that is found and not yet returned.  When the
    stored [book_id] is not a well-formed identifier (it is missing, not a
    string, or a string [ObjectId.is_valid] refuses), the call still returns
    [{"status": "ok"}] and marks the loan returned, and the book collection
    is untouched.  When it is well-formed and names a book with an integer
    [copies_available], the call does the same and that counter goes up by
    one. *)
Theorem return_book_book_id s loan_id now l :
  is_valid loan_id = true →
  db s "loan" !! ObjectId loan_id = Some l →
  l !! "status" ≠ Some (VStr "returned") →
  (is_valid_field is_valid (l !! "book_id") = None →
   ∃ s',
     return_book is_valid ObjectId loan_id now s = (s', inr ok_response) ∧
     db s' "loan" !! ObjectId loan_id = Some (returned_fields now ∪ l) ∧
     (returned_fields now ∪ l) !! "status" = Some (VStr "returned") ∧
     db s' "book" = db s "book")
  ∧ (∀ bs b n,
       is_valid_field is_valid (l !! "book_id") = Some bs →
       db s "book" !! ObjectId bs = Some b →
       b !! "copies_available" = Some (VInt n) →
       ∃ s',
         return_book is_valid ObjectId loan_id now s = (s', inr ok_response) ∧
         db s' "loan" !! ObjectId loan_id = Some (returned_fields now ∪ l) ∧
         (returned_fields now ∪ l) !! "status" = Some (VStr "returned") ∧
         db s' "book"
           = <[ObjectId bs := <["copies_available" := VInt (n + 1)]> b]>
               (db s "book")).
Proof.
  intros Hv Hl Hst.
  rewrite (return_book_run _ _ now _ Hv Hl Hst). cbv zeta. split.
  - intros ->. eexists. unfold mark_returned. split_and!; [done| | |].
    + rewrite db_insert_eq. apply lookup_insert_eq.
    + apply lookup_union_Some_l, returned_fields_status.
    + by rewrite db_insert_ne.
  - intros bs b n -> Hb Hca. rewrite Hb. unfold inc_field. rewrite Hca.
    eexists. unfold mark_returned. split_and!; [done| | |].
    + rewrite db_insert_ne, db_insert_eq by done. apply lookup_insert_eq.
    + apply lookup_union_Some_l, returned_fields_status.
    + by rewrite db_insert_eq.
Qed.

(** C10: what a successful [return_book] leaves alone.  In the loan record
    every field but [status] and [return_date] keeps its value, and every
    other loan is unchanged; in the book collection no record appears or
    disappears, every field but [copies_available] keeps its value in every
    book, and a book the loan does not refer to is unchanged; every other
    collection is unchanged. *)
Theorem return_book_frame s s' loan_id now resp :
  return_book is_valid ObjectId loan_id now s = (s', inr resp) →
  ∃ l l',
    db s "loan" !! ObjectId loan_id = Some l ∧
    db s' "loan" !! ObjectId loan_id = Some l' ∧
    (∀ f, f ≠ "status" → f ≠ "return_date" → l' !! f = l !! f) ∧
    (∀ k, k ≠ ObjectId loan_id → db s' "loan" !! k = db s "loan" !! k) ∧
    dom (db s' "book") = dom (db s "book") ∧
    (∀ k f, f ≠ "copies_available" →
            db s' "book" !! k ≫= (.!! f) = db s "book" !! k ≫= (.!! f)) ∧
    (∀ k, (∀ bs, is_valid_field is_valid (l !! "book_id") = Some bs →
                 k ≠ ObjectId bs) →
          db s' "book" !! k = db s "book" !! k) ∧
    (∀ c, c ≠ "loan" → c ≠ "book" → db s' c = db s c).
Proof.
  intros Hret.
  destruct (return_book_inv _ _ _ _ _ Hret) as (l & Hv & Hl & Hst).
  exists l, (returned_fields now ∪ l).
  pose proof (return_book_loans _ _ _ _ _ _ Hl Hret) as Hloans.
  rewrite (return_book_run _ _ now _ Hv Hl Hst) in Hret. cbv zeta in Hret.
  split_and!.
  - done.
  - rewrite Hloans. apply lookup_insert_eq.
  - intros f H1 H2. rewrite lookup_union_r; [done|].
    by apply returned_fields_other.
  - intros k Hk. rewrite Hloans. by rewrite lookup_insert_ne.
  - unfold mark_returned in Hret.
    destruct (is_valid_field _ _) as [bs|]; simplify_eq;
      [|by rewrite db_insert_ne].
    destruct (db s "book" !! ObjectId bs) as [b|] eqn:Hb; simplify_eq;
      [|by rewrite db_insert_ne].
    destruct (inc_field _ _ b) as [b'|]; simplify_eq.
    rewrite db_insert_eq, dom_insert_L.
    apply subseteq_union_1_L, singleton_subseteq_l.
    by apply elem_of_dom_2 with b.
  - intros k f Hf. unfold mark_returned in Hret.
    destruct (is_valid_field _ _) as [bs|]; simplify_eq;
      [|by rewrite db_insert_ne].
    destruct (db s "book" !! ObjectId bs) as [b|] eqn:Hb; simplify_eq;
      [|by rewrite db_insert_ne].
    destruct (inc_field _ _ b) as [b'|] eqn:Hinc; simplify_eq.
    rewrite db_insert_eq.
    destruct (decide (k = ObjectId bs)) as [->|Hk];
      [|by rewrite lookup_insert_ne].
    rewrite lookup_insert_eq, Hb. cbn. unfold inc_field in Hinc.
    repeat case_match; simplify_eq; by rewrite lookup_insert_ne.
  - intros k Hk. unfold mark_returned in Hret.
    destruct (is_valid_field _ _) as [bs|]; simplify_eq;
      [|by rewrite db_insert_ne].
    destruct (db s "book" !! ObjectId bs) as [b|] eqn:Hb; simplify_eq;
      [|by rewrite db_insert_ne].
    destruct (inc_field _ _ b) as [b'|] eqn:Hinc; simplify_eq.
    rewrite db_insert_eq. rewrite lookup_insert_ne; [done|].
    intros <-. by eapply Hk.
  - intros c Hc1 Hc2. unfold mark_returned in Hret.
    repeat case_match; simplify_eq; by rewrite !db_insert_ne.
Qed.

(** *** [add_book], [add_member] *)

Lemma add_book_run s payload gen :
  db s "book" !! gen = None →
  add_book oid_str payload gen s =
    (<["book" := <[gen := <["copies_available" := VInt (copies_total payload)]>
                           (BookIn_model_dump payload)]> (db s "book")]> s,
     inr {[ "id" := VStr (oid_str gen) ]}).
Proof.
  intros Hg. unfold add_book, create_document, insert_one. unfold_M.
  by rewrite Hg.
Qed.

(** C7: [add_book] with [copies_total = N], the generated identifier being
    new to the collection, stores a book whose [copies_available] and
    [copies_total] are both [N]. *)
Theorem add_book_copies_available s payload gen :
  db s "book" !! gen = None →
  ∃ s' b,
    add_book oid_str payload gen s = (s', inr {[ "id" := VStr (oid_str gen) ]}) ∧
    db s' "book" !! gen = Some b ∧
    b !! "copies_total" = Some (VInt (copies_total payload)) ∧
    b !! "copies_available" = Some (VInt (copies_total payload)).
Proof.
  intros Hg. rewrite (add_book_run _ _ _ Hg). eexists _, _. split_and!.
  - done.
  - rewrite db_insert_eq. apply lookup_insert_eq.
  - reflexivity.
  - apply lookup_insert_eq.
Qed.

Lemma add_member_run s payload gen :
  db s "member" !! gen = None →
  add_member oid_str payload gen s =
    (<["member" := <[gen := MemberIn_model_dump payload]> (db s "member")]> s,
     inr {[ "id" := VStr (oid_str gen) ]}).
Proof.
  intros Hg. unfold add_member, create_document, insert_one. unfold_M.
  by rewrite Hg.
Qed.

(** [add_member] looks at no field of its payload: whatever the email string
    is, the member is stored with it. *)
Lemma add_member_any_email s payload gen :
  db s "member" !! gen = None →
  ∃ s' m,
    add_member oid_str payload gen s
      = (s', inr {[ "id" := VStr (oid_str gen) ]}) ∧
    db s' "member" !! gen = Some m ∧
    m !! "email" = Some (VStr (email payload)).
Proof.
  intros Hg. rewrite (add_member_run _ _ _ Hg). eexists _, _. split_and!.
  - done.
  - rewrite db_insert_eq. apply lookup_insert_eq.
  - reflexivity.
Qed.

(** *** Dates *)

(** Adding whole days to a datetime moves its date by that many days. *)
Lemma date_add_days (now n : Z) : date (now + n * US_PER_DAY) = date now + n.
Proof. unfold date. by rewrite Z.div_add. Qed.

(** C8: the loan a successful [create_loan] stores has [loan_date] equal to
    the clock reading [now] and [due_date] equal to the ISO form of the date
    of [now] moved by [days] days, where [days] is 14 when the request body
    leaves it out; its status is "borrowed". *)
Theorem create_loan_dates s s1 bid mid (dy : option Z) now gen resp :
  create_loan is_valid ObjectId oid_str isoformat
    (LoanIn_of_body bid mid dy) now gen s = (s1, inr resp) →
  ∃ l,
    db s1 "loan" !! gen = Some l ∧
    l !! "loan_date" = Some (VTime now) ∧
    l !! "due_date" = Some (VStr (isoformat (date now + default 14 dy))) ∧
    l !! "status" = Some (VStr "borrowed").
Proof.
  intros Hloan.
  destruct (create_loan_inv _ _ _ _ _ _ Hloan)
    as (b & n & m & _ & _ & _ & _ & _ & _ & _ & _ & _ & -> & _).
  eexists. split_and!.
  - rewrite db_insert_ne, db_insert_eq by done. apply lookup_insert_eq.
  - apply loan_data_loan_date.
  - rewrite loan_data_due_date. by rewrite date_add_days.
  - apply loan_data_status.
Qed.

(** ** The store along a run of the service *)

(** How an unsuccessful [create_loan] leaves the store: as it was, unless the
    book's [copies_available] is the boolean [True], which passes the
    comparison with 0 and is then refused by [$inc], after the loan went
    in. *)
Lemma create_loan_err s s1 payload now gen e :
  create_loan is_valid ObjectId oid_str isoformat payload now gen s
    = (s1, inl e) →
  s1 = s ∨
  ∃ b, db s "book" !! ObjectId (book_id payload) = Some b ∧
       b !! "copies_available" = Some (VBool true) ∧
       db s "loan" !! gen = None ∧
       s1 = <["loan" := <[gen := loan_data isoformat payload now
                                   (now + days payload * US_PER_DAY)]>
                          (db s "loan")]> s.
Proof.
  unfold create_loan. unfold_M.
  destruct (_get_by_id _ _ "book" _ s) as [s0 [e0|[bk b]]] eqn:Hb.
  { intros [= <- _]. left. by rewrite <-(get_by_id_state s "book" (book_id payload)), Hb. }
  apply get_by_id_inv in Hb as (-> & Hvb & -> & Hb).
  destruct (le_zero _) as [e0|[]] eqn:Hle; [intros [= <- _]; by left..|].
  destruct (_get_by_id _ _ "member" _ s) as [s0 [e0|[mk m]]] eqn:Hm.
  { intros [= <- _]. left. by rewrite <-(get_by_id_state s "member" (member_id payload)), Hm. }
  apply get_by_id_inv in Hm as (-> & Hvm & -> & Hm).
  unfold timedelta. destruct (Z.abs _ >? _); [intros [= <- _]; by left|].
  unfold datetime_add. destruct (_ && _); [|intros [= <- _]; by left].
  unfold create_document, insert_one. unfold_M.
  destruct (db s "loan" !! gen) eqn:Hgen; [intros [= <- _]; by left|].
  unfold update_one_inc. rewrite db_insert_ne by done. rewrite Hb.
  destruct (inc_field _ _ b) as [b'|] eqn:Hinc; [by inversion 1|].
  intros [= <- _]. right. exists b. split_and!; [done| |done..].
  unfold inc_field in Hinc.
  destruct (b !! "copies_available") as [[|[]|n| | |]|] eqn:Hca;
    by simplify_eq/=.
Qed.

(** How an unsuccessful [return_book] leaves the store: as it was, unless
    [$inc] refused the book's counter, after the loan was marked. *)
Lemma return_book_err s s1 loan_id now e :
  return_book is_valid ObjectId loan_id now s = (s1, inl e) →
  s1 = s ∨
  ∃ l, is_valid loan_id = true ∧
       db s "loan" !! ObjectId loan_id = Some l ∧
       l !! "status" ≠ Some (VStr "returned") ∧
       s1 = mark_returned s (ObjectId loan_id) l now.
Proof.
  destruct (is_valid loan_id) eqn:Hv.
  2: { unfold return_book, _get_by_id. unfold_M. rewrite Hv.
       intros [= <- _]. by left. }
  destruct (db s "loan" !! ObjectId loan_id) as [l|] eqn:Hl.
  2: { unfold return_book, _get_by_id. unfold_M. rewrite Hv. cbn.
       unfold find_one. rewrite Hl. intros [= <- _]. by left. }
  destruct (decide (l !! "status" = Some (VStr "returned"))) as [Hst|Hst].
  { rewrite (return_book_returned _ _ now _ Hv Hl Hst). intros [= <- _]. by left. }
  rewrite (return_book_run _ _ now _ Hv Hl Hst). cbv zeta.
  intros Hret. right. exists l. split_and!; [done..|].
  repeat case_match; by simplify_eq.
Qed.

Lemma add_book_state s payload gen :
  (add_book oid_str payload gen s).1 = s ∨
  db s "book" !! gen = None ∧
  (add_book oid_str payload gen s).1 =
    <["book" := <[gen := <["copies_available" := VInt (copies_total payload)]>
                           (BookIn_model_dump payload)]> (db s "book")]> s.
Proof.
  destruct (db s "book" !! gen) eqn:Hg.
  - left. unfold add_book, create_document, insert_one. unfold_M. by rewrite Hg.
  - right. by rewrite (add_book_run _ _ _ Hg).
Qed.

Lemma add_member_state s payload gen :
  (add_member oid_str payload gen s).1 = s ∨
  (add_member oid_str payload gen s).1 =
    <["member" := <[gen := MemberIn_model_dump payload]> (db s "member")]> s.
Proof.
  destruct (db s "member" !! gen) eqn:Hg.
  - left. unfold add_member, create_document, insert_one. unfold_M. by rewrite Hg.
  - right. by rewrite (add_member_run _ _ _ Hg).
Qed.

Lemma list_loans_state s status : (list_loans oid_str status s).1 = s.
Proof. reflexivity. Qed.

(** What one request does to the loan collection: nothing, or it adds a new
    loan as [create_loan] builds it, or it marks a loan returned. *)
Lemma handle_loans r s :
  let s' := handle is_valid ObjectId oid_str isoformat r s in
  db s' "loan" = db s "loan"
  ∨ (∃ gen payload now due,
       db s "loan" !! gen = None ∧
       db s' "loan" = <[gen := loan_data isoformat payload now due]> (db s "loan"))
  ∨ (∃ k l now,
       db s "loan" !! k = Some l ∧
       l !! "status" ≠ Some (VStr "returned") ∧
       db s' "loan" = <[k := returned_fields now ∪ l]> (db s "loan")).
Proof.
  destruct r as [p g|p g|p now g|lid now|st]; cbn [handle]; cbv zeta.
  - destruct (add_book_state s p g) as [->|[_ ->]]; [by left|].
    left. by rewrite db_insert_ne.
  - destruct (add_member_state s p g) as [-> | ->]; [by left|].
    left. by rewrite db_insert_ne.
  - destruct (create_loan is_valid ObjectId oid_str isoformat p now g s)
      as [s1 [e|resp]] eqn:Hr; cbn [fst].
    + destruct (create_loan_err _ _ _ _ _ _ Hr) as [->|(b & _ & _ & Hg & ->)];
        [by left|].
      right; left. eexists _, _, _, _. split; [done|]. by rewrite db_insert_eq.
    + destruct (create_loan_inv _ _ _ _ _ _ Hr)
        as (b & n & m & _ & _ & _ & _ & _ & _ & _ & _ & Hg & -> & _).
      right; left. eexists _, _, _, _. split; [done|].
      by rewrite db_insert_ne, db_insert_eq.
  - destruct (return_book is_valid ObjectId lid now s)
      as [s1 [e|resp]] eqn:Hr; cbn [fst].
    + destruct (return_book_err _ _ _ _ _ Hr) as [->|(l & _ & Hl & Hst & ->)];
        [by left|].
      right; right. exists (ObjectId lid), l, now. split_and!; [done..|].
      unfold mark_returned. by rewrite db_insert_eq.
    + destruct (return_book_inv _ _ _ _ _ Hr) as (l & Hv & Hl & Hst).
      right; right. exists (ObjectId lid), l, now. split_and!; [done..|].
      by apply return_book_loans with resp.
  - by left.
Qed.

Lemma db_empty c : db (∅ : gmap string (gmap oid doc)) c = ∅.
Proof. unfold db. by rewrite lookup_empty. Qed.

(** Along every run, a loan whose status is "returned" has its return date:
    loans start as "borrowed", and the one write that sets the status sets
    the date with it. *)
Lemma reachable_returned_has_date s :
  reachable is_valid ObjectId oid_str isoformat any_request s →
  ∀ k l, db s "loan" !! k = Some l → returned_has_date l.
Proof.
  induction 1 as [|s r Hs IH _]; intros k l Hl.
  { by rewrite db_empty, lookup_empty in Hl. }
  destruct (handle_loans r s)
    as [Heq|[(g & p & now & due & _ & Heq)|(k0 & l0 & now & _ & _ & Heq)]];
    rewrite Heq in Hl.
  - by eapply IH.
  - destruct (decide (g = k)) as [->|Hne].
    + rewrite lookup_insert_eq in Hl. injection Hl as <-.
      intros Hst. by rewrite loan_data_status in Hst.
    + rewrite lookup_insert_ne in Hl by done. by eapply IH.
  - destruct (decide (k0 = k)) as [->|Hne].
    + rewrite lookup_insert_eq in Hl. injection Hl as <-.
      intros _. exists now. apply lookup_union_Some_l, returned_fields_return_date.
    + rewrite lookup_insert_ne in Hl by done. by eapply IH.
Qed.

(** C9: along every run of the service, every stored loan with status
    "returned" has [return_date] set, and so has every loan that
    [list_loans] with [status=returned] returns. *)
Theorem list_returned_have_return_date s :
  reachable is_valid ObjectId oid_str isoformat any_request s →
  (∀ k l, db s "loan" !! k = Some l → returned_has_date l)
  ∧ ∃ loans,
      list_loans oid_str (Some "returned") s = (s, inr loans) ∧
      ∀ l, l ∈ loans →
           l !! "status" = Some (VStr "returned") ∧
           ∃ t, l !! "return_date" = Some (VTime t).
Proof.
  intros Hs. pose proof (reachable_returned_has_date s Hs) as Hinv.
  split; [done|]. eexists. split; [reflexivity|].
  intros l (kd & -> & Hkd)%list_elem_of_fmap. destruct kd as [k d]. cbn.
  apply elem_of_map_to_list, map_lookup_filter_Some in Hkd as [Hd Hmatch].
  cbn in Hmatch. apply Is_true_true, bool_decide_eq_true in Hmatch.
  assert (Hst : d !! "status" = Some (VStr "returned")).
  { eapply lookup_weaken; [|exact Hmatch]. apply lookup_singleton_eq. }
  rewrite !lookup_insert_ne by done. split; [done|]. by eapply Hinv.
Qed.

(** *** Counting the loans out on a book *)

Lemma loans_out_insert_None (m : gmap oid doc) k l bk :
  m !! k = None →
  loans_out is_valid ObjectId (<[k := l]> m) bk
    = ((if borrows is_valid ObjectId bk l then 1 else 0)
       + loans_out is_valid ObjectId m bk)%nat.
Proof.
  intros Hk. unfold loans_out. rewrite map_filter_insert. cbn [snd].
  case_decide as Hb.
  - rewrite Hb. rewrite map_size_insert_None; [done|].
    apply map_lookup_filter_None_2. by left.
  - rewrite delete_id by done. by destruct (borrows _ _ bk l).
Qed.

Lemma loans_out_insert_Some (m : gmap oid doc) k l l' bk :
  m !! k = Some l →
  ((if borrows is_valid ObjectId bk l then 1 else 0)
   + loans_out is_valid ObjectId (<[k := l']> m) bk
   = (if borrows is_valid ObjectId bk l' then 1 else 0)
     + loans_out is_valid ObjectId m bk)%nat.
Proof.
  intros Hk.
  rewrite <-(insert_delete_eq m k l').
  rewrite <-(insert_delete_id m k l) at 2 by done.
  rewrite !loans_out_insert_None by apply lookup_delete_eq. lia.
Qed.

Lemma loans_out_none (m : gmap oid doc) bk :
  (∀ k l, m !! k = Some l → borrows is_valid ObjectId bk l = false) →
  loans_out is_valid ObjectId m bk = 0%nat.
Proof.
  intros Hm. unfold loans_out. apply map_size_empty_iff, map_empty_filter_2.
  intros k l Hl. cbn. by rewrite (Hm k l Hl).
Qed.

Lemma borrows_true bk l :
  borrows is_valid ObjectId bk l = true ↔
  l !! "status" ≠ Some (VStr "returned") ∧
  ∃ bs, is_valid_field is_valid (l !! "book_id") = Some bs ∧ ObjectId bs = bk.
Proof.
  unfold borrows. rewrite andb_true_iff, bool_decide_eq_true.
  destruct (is_valid_field _ _) as [bs|].
  - rewrite bool_decide_eq_true. split.
    + intros [Hst Hbk]. split; [done|]. by exists bs.
    + by intros [Hst (bs' & [= <-] & Hbk)].
  - split; [by intros [_ [=]]|by intros [_ (bs & [=] & _)]].
Qed.

Lemma borrows_returned bk l now :
  borrows is_valid ObjectId bk (returned_fields now ∪ l) = false.
Proof.
  apply not_true_is_false. rewrite borrows_true. intros [Hst _]. apply Hst.
  apply lookup_union_Some_l, returned_fields_status.
Qed.

(** *** The ledger balances along a run *)

Lemma ledger_inv_ext s s' :
  db s' "book" = db s "book" → db s' "loan" = db s "loan" →
  ledger_inv is_valid ObjectId s → ledger_inv is_valid ObjectId s'.
Proof.
  intros Hb Hl [H1 H2]. unfold ledger_inv, outstanding. by rewrite Hb, Hl.
Qed.

Lemma ledger_inv_add_book s payload gen :
  0 ≤ copies_total payload →
  db s "book" !! gen = None →
  ledger_inv is_valid ObjectId s →
  ledger_inv is_valid ObjectId
    (<["book" := <[gen := <["copies_available" := VInt (copies_total payload)]>
                           (BookIn_model_dump payload)]> (db s "book")]> s).
Proof.
  intros Hn Hg [H1 H2]. split.
  - intros k b. rewrite db_insert_eq. unfold outstanding.
    rewrite db_insert_ne by done. destruct (decide (gen = k)) as [<-|Hne].
    + rewrite lookup_insert_eq. intros [= <-].
      exists (copies_total payload), (copies_total payload).
      split_and!; [apply lookup_insert_eq|reflexivity|done|].
      rewrite loans_out_none; [lia|]. intros k l Hl.
      apply not_true_is_false. rewrite borrows_true.
      intros [_ (bs & Hbs & Hk)].
      destruct (H2 k l Hl) as (bs' & Hbs' & [b' Hb']). congruence.
    + rewrite lookup_insert_ne by done. apply H1.
  - intros k l. rewrite db_insert_ne by done. intros Hl.
    destruct (H2 k l Hl) as (bs & Hbs & Hb). exists bs. split; [done|].
    rewrite db_insert_eq, lookup_insert_is_Some'. by right.
Qed.

Lemma ledger_inv_create_loan s payload now due gen b n :
  is_valid (book_id payload) = true →
  db s "book" !! ObjectId (book_id payload) = Some b →
  b !! "copies_available" = Some (VInt n) →
  0 < n →
  db s "loan" !! gen = None →
  ledger_inv is_valid ObjectId s →
  ledger_inv is_valid ObjectId
    (<["book" := <[ObjectId (book_id payload)
                   := <["copies_available" := VInt (n - 1)]> b]> (db s "book")]>
       (<["loan" := <[gen := loan_data isoformat payload now due]>
                      (db s "loan")]> s)).
Proof.
  intros Hvb Hb Hca Hn Hg [H1 H2].
  set (ld := loan_data isoformat payload now due).
  assert (Hbid : is_valid_field is_valid (ld !! "book_id") = Some (book_id payload)).
  { unfold ld. rewrite loan_data_book_id. cbn. by rewrite Hvb. }
  assert (Hst : ld !! "status" ≠ Some (VStr "returned")).
  { unfold ld. by rewrite loan_data_status. }
  split.
  - intros k b1. rewrite db_insert_eq. unfold outstanding.
    rewrite db_insert_ne, db_insert_eq by done.
    rewrite loans_out_insert_None by done.
    destruct (decide (ObjectId (book_id payload) = k)) as [<-|Hne].
    + rewrite lookup_insert_eq. intros [= <-].
      destruct (H1 _ _ Hb) as (a & t & Ha & Ht & Ha0 & Hsum).
      assert (a = n) as -> by congruence.
      exists (n - 1), t. split_and!; [apply lookup_insert_eq| |lia|].
      { by rewrite lookup_insert_ne. }
      rewrite (proj2 (borrows_true _ ld)) by eauto.
      unfold outstanding in Hsum. lia.
    + rewrite lookup_insert_ne by done. intros Hb1.
      destruct (H1 _ _ Hb1) as (a & t & Ha & Ht & Ha0 & Hsum).
      exists a, t. split_and!; [done..|].
      assert (borrows is_valid ObjectId k ld = false) as ->.
      { apply not_true_is_false. rewrite borrows_true.
        intros [_ (bs & Hbs & Hk)]. congruence. }
      exact Hsum.
  - intros k l. rewrite db_insert_ne, !db_insert_eq by done.
    destruct (decide (gen = k)) as [<-|Hne].
    + rewrite lookup_insert_eq. intros [= <-]. exists (book_id payload).
      split; [done|]. rewrite lookup_insert_eq. eauto.
    + rewrite lookup_insert_ne by done. intros Hl.
      destruct (H2 k l Hl) as (bs & Hbs & Hbk). exists bs. split; [done|].
      rewrite lookup_insert_is_Some'. by right.
Qed.

Lemma ledger_inv_return_book s k l now bs b a :
  db s "loan" !! k = Some l →
  l !! "status" ≠ Some (VStr "returned") →
  is_valid_field is_valid (l !! "book_id") = Some bs →
  db s "book" !! ObjectId bs = Some b →
  b !! "copies_available" = Some (VInt a) →
  ledger_inv is_valid ObjectId s →
  ledger_inv is_valid ObjectId
    (<["book" := <[ObjectId bs := <["copies_available" := VInt (a + 1)]> b]>
                   (db s "book")]> (mark_returned s k l now)).
Proof.
  intros Hl Hst Hbs Hb Hca [H1 H2]. split.
  - intros k' b1. rewrite db_insert_eq. unfold outstanding, mark_returned.
    rewrite db_insert_ne, db_insert_eq by done.
    pose proof (loans_out_insert_Some (db s "loan") k l
                  (returned_fields now ∪ l) k' Hl) as Hcount.
    rewrite borrows_returned in Hcount.
    destruct (decide (ObjectId bs = k')) as [<-|Hne].
    + rewrite lookup_insert_eq. intros [= <-].
      destruct (H1 _ _ Hb) as (a0 & t & Ha & Ht & Ha0 & Hsum).
      assert (a0 = a) as -> by congruence.
      rewrite (proj2 (borrows_true _ l)) in Hcount by eauto.
      exists (a + 1), t. split_and!; [apply lookup_insert_eq| |lia|].
      { by rewrite lookup_insert_ne. }
      unfold outstanding in Hsum. lia.
    + rewrite lookup_insert_ne by done. intros Hb1.
      destruct (H1 _ _ Hb1) as (a0 & t & Ha & Ht & Ha0 & Hsum).
      assert (borrows is_valid ObjectId k' l = false) as Hno.
      { apply not_true_is_false. rewrite borrows_true.
        intros [_ (bs' & Hbs' & Hk)]. congruence. }
      rewrite Hno in Hcount.
      exists a0, t. split_and!; [done..|]. unfold outstanding in Hsum. lia.
  - intros k0 l0. unfold mark_returned. rewrite db_insert_ne, !db_insert_eq by done.
    destruct (decide (k = k0)) as [<-|Hne].
    + rewrite lookup_insert_eq. intros [= <-]. exists bs. split.
      * rewrite lookup_union_r; [done|]. by apply returned_fields_other.
      * rewrite lookup_insert_is_Some'. right. eauto.
    + rewrite lookup_insert_ne by done. intros Hl0.
      destruct (H2 _ _ Hl0) as (bs0 & Hbs0 & Hbk). exists bs0. split; [done|].
      rewrite lookup_insert_is_Some'. by right.
Qed.

Lemma ledger_inv_step r s :
  nonneg_copies r →
  ledger_inv is_valid ObjectId s →
  ledger_inv is_valid ObjectId (handle is_valid ObjectId oid_str isoformat r s).
Proof.
  intros Hr Hinv.
  destruct r as [p g|p g|p now g|lid now|st]; cbn [handle].
  - destruct (add_book_state s p g) as [->|[Hg ->]]; [done|].
    by apply ledger_inv_add_book.
  - destruct (add_member_state s p g) as [-> | ->]; [done|].
    eapply ledger_inv_ext; [..|exact Hinv]; by rewrite db_insert_ne.
  - destruct (create_loan is_valid ObjectId oid_str isoformat p now g s)
      as [s1 [e|resp]] eqn:Hc; cbn [fst].
    + destruct (create_loan_err _ _ _ _ _ _ Hc) as [->|(b & Hb & Hca & _)];
        [done|].
      destruct Hinv as [H1 _]. destruct (H1 _ _ Hb) as (a & t & Ha & _).
      congruence.
    + destruct (create_loan_inv _ _ _ _ _ _ Hc)
        as (b & n & m & Hvb & Hb & Hca & Hn & _ & _ & _ & _ & Hg & -> & _).
      by apply ledger_inv_create_loan.
  - assert (∀ l, is_valid lid = true →
                 db s "loan" !! ObjectId lid = Some l →
                 l !! "status" ≠ Some (VStr "returned") →
                 ledger_inv is_valid ObjectId
                   (return_book is_valid ObjectId lid now s).1) as Hrun.
    { intros l Hv Hl Hst. rewrite (return_book_run _ _ now _ Hv Hl Hst).
      cbv zeta. pose proof Hinv as [H1 H2].
      destruct (H2 _ _ Hl) as (bs & Hbs & [b Hb]). rewrite Hbs, Hb.
      destruct (H1 _ _ Hb) as (a & t & Ha & _).
      unfold inc_field. rewrite Ha. cbn [fst].
      by apply ledger_inv_return_book. }
    destruct (return_book is_valid ObjectId lid now s)
      as [s1 [e|resp]] eqn:Hc; cbn [fst] in *.
    + destruct (return_book_err _ _ _ _ _ Hc) as [->|(l & Hv & Hl & Hst & _)];
        [done|]. by eapply Hrun.
    + destruct (return_book_inv _ _ _ _ _ Hc) as (l & Hv & Hl & Hst).
      by eapply Hrun.
  - done.
Qed.

Lemma ledger_inv_empty : ledger_inv is_valid ObjectId (∅ : gmap string (gmap oid doc)).
Proof. split; intros k x; by rewrite db_empty, lookup_empty. Qed.

(** Along every run whose new books have [copies_total >= 0], each book has
    [0 <= copies_available <= copies_total]; the two differ by the number of
    loans out on the book. *)
Lemma reachable_copies_in_range s :
  reachable is_valid ObjectId oid_str isoformat nonneg_copies s →
  ledger_inv is_valid ObjectId s
  ∧ ∀ k b, db s "book" !! k = Some b → copies_in_range b.
Proof.
  intros Hs.
  assert (ledger_inv is_valid ObjectId s) as Hinv.
  { induction Hs as [|s r _ IH Hr]; [apply ledger_inv_empty|].
    by apply ledger_inv_step. }
  split; [done|]. intros k b Hb. destruct Hinv as [H1 _].
  destruct (H1 _ _ Hb) as (a & t & Ha & Ht & Ha0 & Hsum).
  exists a, t. split_and!; [done..|]. unfold outstanding in Hsum. lia.
Qed.

(** ** Beyond the claims: error paths of the loan ledger *)

(** An unsuccessful [create_loan] either wrote nothing, or it is the
    [WriteError] of [$inc] on a counter that is not a number, raised after
    the loan went in. *)
Lemma create_loan_failure s s1 payload now gen e :
  create_loan is_valid ObjectId oid_str isoformat payload now gen s
    = (s1, inl e) →
  s1 = s ∨
  e = WriteError ∧
  ∃ b m, is_valid (book_id payload) = true ∧
         db s "book" !! ObjectId (book_id payload) = Some b ∧
         b !! "copies_available" = Some (VBool true) ∧
         is_valid (member_id payload) = true ∧
         db s "member" !! ObjectId (member_id payload) = Some m ∧
         db s "loan" !! gen = None ∧
         s1 = <["loan" := <[gen := loan_data isoformat payload now
                                     (now + days payload * US_PER_DAY)]>
                            (db s "loan")]> s.
Proof.
  unfold create_loan. unfold_M.
  destruct (_get_by_id _ _ "book" _ s) as [s0 [e0|[bk b]]] eqn:Hb.
  { intros [= <- _]. left.
    by rewrite <-(get_by_id_state s "book" (book_id payload)), Hb. }
  apply get_by_id_inv in Hb as (-> & Hvb & -> & Hb).
  destruct (le_zero _) as [e0|[]] eqn:Hle; [intros [= <- _]; by left..|].
  destruct (_get_by_id _ _ "member" _ s) as [s0 [e0|[mk m]]] eqn:Hm.
  { intros [= <- _]. left.
    by rewrite <-(get_by_id_state s "member" (member_id payload)), Hm. }
  apply get_by_id_inv in Hm as (-> & Hvm & -> & Hm).
  unfold timedelta. destruct (Z.abs _ >? _); [intros [= <- _]; by left|].
  unfold datetime_add. destruct (_ && _); [|intros [= <- _]; by left].
  unfold create_document, insert_one. unfold_M.
  destruct (db s "loan" !! gen) eqn:Hgen; [intros [= <- _]; by left|].
  unfold update_one_inc. rewrite db_insert_ne by done. rewrite Hb.
  destruct (inc_field _ _ b) as [b'|] eqn:Hinc; [by inversion 1|].
  intros [= <- <-]. right. split; [done|]. exists b, m.
  split_and!; [done..| |done|done|done|done].
  unfold inc_field in Hinc.
  destruct (b !! "copies_available") as [[|[]|n| | |]|] eqn:Hca;
    by simplify_eq/=.
Qed.

(** An unsuccessful [return_book] either wrote nothing, or it is the
    [WriteError] of [$inc], raised after the loan was marked returned. *)
Lemma return_book_failure s s1 loan_id now e :
  return_book is_valid ObjectId loan_id now s = (s1, inl e) →
  s1 = s ∨
  e = WriteError ∧
  ∃ l, is_valid loan_id = true ∧
       db s "loan" !! ObjectId loan_id = Some l ∧
       l !! "status" ≠ Some (VStr "returned") ∧
       s1 = mark_returned s (ObjectId loan_id) l now.
Proof.
  destruct (is_valid loan_id) eqn:Hv.
  2: { unfold return_book, _get_by_id. unfold_M. rewrite Hv.
       intros [= <- _]. by left. }
  destruct (db s "loan" !! ObjectId loan_id) as [l|] eqn:Hl.
  2: { unfold return_book, _get_by_id. unfold_M. rewrite Hv. cbn.
       unfold find_one. rewrite Hl. intros [= <- _]. by left. }
  destruct (decide (l !! "status" = Some (VStr "returned"))) as [Hst|Hst].
  { rewrite (return_book_returned _ _ now _ Hv Hl Hst). intros [= <- _]. by left. }
  rewrite (return_book_run _ _ now _ Hv Hl Hst). cbv zeta.
  intros Hret. right.
  repeat case_match; simplify_eq. split; [done|]. by exists l.
Qed.

(** X1: a [create_loan] whose [book_id] is malformed fails with HTTP 400
    "Invalid id", and one whose [book_id] is well-formed but names no book
    fails with HTTP 404 "book not found"; either way nothing is written. *)
Theorem create_loan_book_lookup_error s payload now gen :
  (is_valid (book_id payload) = true →
   db s "book" !! ObjectId (book_id payload) = None) →
  create_loan is_valid ObjectId oid_str isoformat payload now gen s
    = (s, inl (if is_valid (book_id payload)
               then HTTPException 404 "book not found"
               else HTTPException 400 "Invalid id")).
Proof.
  intros Hb. unfold create_loan, _get_by_id. unfold_M.
  destruct (is_valid (book_id payload)); [|done].
  cbn. unfold find_one. by rewrite Hb.
Qed.

(** X2: with the book found and a copy free, a [create_loan] whose
    [member_id] is malformed fails with HTTP 400 "Invalid id", and one whose
    [member_id] names no member fails with HTTP 404 "member not found";
    nothing is written. *)
Theorem create_loan_member_lookup_error s payload now gen b n :
  is_valid (book_id payload) = true →
  db s "book" !! ObjectId (book_id payload) = Some b →
  b !! "copies_available" = Some (VInt n) →
  0 < n →
  (is_valid (member_id payload) = true →
   db s "member" !! ObjectId (member_id payload) = None) →
  create_loan is_valid ObjectId oid_str isoformat payload now gen s
    = (s, inl (if is_valid (member_id payload)
               then HTTPException 404 "member not found"
               else HTTPException 400 "Invalid id")).
Proof.
  intros Hvb Hb Hca Hn Hm. unfold create_loan. unfold_M.
  rewrite (get_by_id_ok _ _ _ _ Hvb Hb), Hca. cbn [from_option id le_zero].
  rewrite (proj2 (Z.leb_gt n 0) Hn).
  unfold _get_by_id. unfold_M.
  destruct (is_valid (member_id payload)); [|done].
  cbn. unfold find_one. by rewrite Hm.
Qed.

(** X3: with the book and the member found and a copy free, a [create_loan]
    whose [days] is beyond what [timedelta] takes, or whose due date falls
    outside the years 1 to 9999, raises [OverflowError] (no HTTP error of the
    handler's own) and writes nothing. *)
Theorem create_loan_days_overflow s payload now gen b n m :
  is_valid (book_id payload) = true →
  db s "book" !! ObjectId (book_id payload) = Some b →
  b !! "copies_available" = Some (VInt n) →
  0 < n →
  is_valid (member_id payload) = true →
  db s "member" !! ObjectId (member_id payload) = Some m →
  ¬ (Z.abs (days payload) ≤ 999999999 ∧
     0 < date (now + days payload * US_PER_DAY) ≤ MAXORDINAL) →
  create_loan is_valid ObjectId oid_str isoformat payload now gen s
    = (s, inl OverflowError).
Proof.
  intros Hvb Hb Hca Hn Hvm Hm Hbad. unfold create_loan. unfold_M.
  rewrite (get_by_id_ok _ _ _ _ Hvb Hb), Hca. cbn [from_option id le_zero].
  rewrite (proj2 (Z.leb_gt n 0) Hn).
  rewrite (get_by_id_ok _ _ _ _ Hvm Hm).
  unfold timedelta. destruct (Z.abs _ >? _) eqn:Habs; [done|].
  unfold datetime_add. destruct (_ && _) eqn:Hrange; [|done].
  exfalso. apply Hbad. rewrite Z.gtb_ltb in Habs. apply Z.ltb_ge in Habs.
  apply andb_prop in Hrange as [?%Z.ltb_lt ?%Z.leb_le]. unfold date. lia.
Qed.

(** [create_loan] when every check passes. *)
Lemma create_loan_run s payload now gen b n m :
  is_valid (book_id payload) = true →
  db s "book" !! ObjectId (book_id payload) = Some b →
  b !! "copies_available" = Some (VInt n) →
  0 < n →
  is_valid (member_id payload) = true →
  db s "member" !! ObjectId (member_id payload) = Some m →
  Z.abs (days payload) ≤ 999999999 →
  0 < date (now + days payload * US_PER_DAY) ≤ MAXORDINAL →
  db s "loan" !! gen = None →
  create_loan is_valid ObjectId oid_str isoformat payload now gen s
    = (<["book" := <[ObjectId (book_id payload)
                     := <["copies_available" := VInt (n - 1)]> b]> (db s "book")]>
         (<["loan" := <[gen := loan_data isoformat payload now
                                 (now + days payload * US_PER_DAY)]>
                        (db s "loan")]> s),
       inr {[ "id" := VStr (oid_str gen) ]}).
Proof.
  intros Hvb Hb Hca Hn Hvm Hm Habs Hrange Hgen. unfold create_loan. unfold_M.
  rewrite (get_by_id_ok _ _ _ _ Hvb Hb), Hca. cbn [from_option id le_zero].
  rewrite (proj2 (Z.leb_gt n 0) Hn).
  rewrite (get_by_id_ok _ _ _ _ Hvm Hm).
  unfold timedelta. rewrite Z.gtb_ltb, (proj2 (Z.ltb_ge _ _) Habs).
  unfold datetime_add, date in *.
  rewrite (proj2 (Z.ltb_lt _ _) (proj1 Hrange)),
          (proj2 (Z.leb_le _ _) (proj2 Hrange)). cbn [andb].
  unfold create_document, insert_one. unfold_M. rewrite Hgen.
  unfold update_one_inc. rewrite db_insert_ne by done. rewrite Hb.
  unfold inc_field. by rewrite Hca.
Qed.

(** X4: [create_loan] answers with the new loan's identifier exactly when the
    book is found with a positive integer [copies_available], the member is
    found, [days] and the due date are in range and the generated identifier
    is new to the loan collection. *)
Theorem create_loan_succeeds_iff s payload now gen :
  loan_allowed is_valid ObjectId payload now gen s ↔
  ∃ s1, create_loan is_valid ObjectId oid_str isoformat payload now gen s
          = (s1, inr {[ "id" := VStr (oid_str gen) ]}).
Proof.
  split.
  - intros (Hvb & (b & n & Hb & Hca & Hn) & Hvm & [m Hm] & Habs & Hrange & Hgen).
    eexists. by eapply create_loan_run.
  - intros [s1 Hloan].
    destruct (create_loan_inv _ _ _ _ _ _ Hloan)
      as (b & n & m & Hvb & Hb & Hca & Hn & Hvm & Hm & Habs & Hrange & Hgen & _).
    refine (conj Hvb (conj _ (conj Hvm (conj _ (conj Habs (conj Hrange Hgen))))));
      eauto.
Qed.


(** X6: a [create_loan] or [return_book] that is answered with an HTTP error
    of the handler (400 or 404) has written nothing to the store. *)
Theorem http_error_writes_nothing s status_code detail :
  (∀ payload now gen,
     (create_loan is_valid ObjectId oid_str isoformat payload now gen s).2
       = inl (HTTPException status_code detail) →
     (create_loan is_valid ObjectId oid_str isoformat payload now gen s).1 = s)
  ∧ (∀ loan_id now,
       (return_book is_valid ObjectId loan_id now s).2
         = inl (HTTPException status_code detail) →
       (return_book is_valid ObjectId loan_id now s).1 = s).
Proof.
  split.
  - intros payload now gen.
    destruct (create_loan _ _ _ _ payload now gen s) as [s1 r] eqn:Hc.
    cbn. intros ->.
    by destruct (create_loan_failure _ _ _ _ _ _ Hc) as [->|[[=] _]].
  - intros loan_id now.
    destruct (return_book _ _ loan_id now s) as [s1 r] eqn:Hr.
    cbn. intros ->.
    by destruct (return_book_failure _ _ _ _ _ Hr) as [->|[[=] _]].
Qed.

(** X7: a [return_book] whose [loan_id] is malformed fails with HTTP 400
    "Invalid id", and one whose [loan_id] names no loan fails with HTTP 404
    "loan not found"; either way nothing is written. *)
Theorem return_book_lookup_error s loan_id now :
  (is_valid loan_id = true → db s "loan" !! ObjectId loan_id = None) →
  return_book is_valid ObjectId loan_id now s
    = (s, inl (if is_valid loan_id
               then HTTPException 404 "loan not found"
               else HTTPException 400 "Invalid id")).
Proof.
  intros Hl. unfold return_book, _get_by_id. unfold_M.
  destruct (is_valid loan_id); [|done].
  cbn. unfold find_one. by rewrite Hl.
Qed.

(** ** Beyond the claims: what no request undoes *)

(** The shape of the store after one request: unchanged; or a new book; or
    a new member; or a new loan, with the book's counter lowered unless
    [$inc] refused it; or a loan marked returned, with the book's counter
    raised when the loan names a book whose counter [$inc] accepts. *)
Lemma handle_shape r s :
  let s' := handle is_valid ObjectId oid_str isoformat r s in
  s' = s
  ∨ (∃ p g,
       db s "book" !! g = None ∧
       s' = <["book" := <[g := <["copies_available" := VInt (copies_total p)]>
                               (BookIn_model_dump p)]> (db s "book")]> s)
  ∨ (∃ p g,
       db s "member" !! g = None ∧
       s' = <["member" := <[g := MemberIn_model_dump p]> (db s "member")]> s)
  ∨ (∃ p now g b m,
       is_valid (book_id p) = true ∧
       db s "book" !! ObjectId (book_id p) = Some b ∧
       is_valid (member_id p) = true ∧
       db s "member" !! ObjectId (member_id p) = Some m ∧
       db s "loan" !! g = None ∧
       let s_loan :=
         <["loan" := <[g := loan_data isoformat p now
                              (now + days p * US_PER_DAY)]> (db s "loan")]> s in
       (b !! "copies_available" = Some (VBool true) ∧ s' = s_loan)
       ∨ (∃ n, b !! "copies_available" = Some (VInt n) ∧ 0 < n ∧
               s' = <["book" := <[ObjectId (book_id p)
                                  := <["copies_available" := VInt (n - 1)]> b]>
                                  (db s "book")]> s_loan))
  ∨ (∃ loan_id now l,
       is_valid loan_id = true ∧
       db s "loan" !! ObjectId loan_id = Some l ∧
       l !! "status" ≠ Some (VStr "returned") ∧
       let s_l := mark_returned s (ObjectId loan_id) l now in
       s' = s_l
       ∨ (∃ bs b b',
            is_valid_field is_valid (l !! "book_id") = Some bs ∧
            db s "book" !! ObjectId bs = Some b ∧
            inc_field "copies_available" 1 b = Some b' ∧
            s' = <["book" := <[ObjectId bs := b']> (db s "book")]> s_l)).
Proof.
  destruct r as [p g|p g|p now g|lid now|st]; cbn [handle]; cbv zeta.
  - destruct (add_book_state s p g) as [->|[Hg ->]]; [by left|].
    right; left. by exists p, g.
  - destruct (db s "member" !! g) eqn:Hg.
    + left. unfold add_member, create_document, insert_one. unfold_M.
      by rewrite Hg.
    + right; right; left. exists p, g. by rewrite (add_member_run _ _ _ Hg).
  - destruct (create_loan is_valid ObjectId oid_str isoformat p now g s)
      as [s1 [e|resp]] eqn:Hc; cbn [fst].
    + destruct (create_loan_failure _ _ _ _ _ _ Hc)
        as [->|(_ & b & m & Hvb & Hb & Hca & Hvm & Hm & Hg & ->)]; [by left|].
      do 3 right; left. exists p, now, g, b, m. split_and!; [done..|]. by left.
    + destruct (create_loan_inv _ _ _ _ _ _ Hc)
        as (b & n & m & Hvb & Hb & Hca & Hn & Hvm & Hm & _ & _ & Hg & -> & _).
      do 3 right; left. exists p, now, g, b, m. split_and!; [done..|].
      right. by exists n.
  - destruct (return_book is_valid ObjectId lid now s)
      as [s1 [e|resp]] eqn:Hr; cbn [fst].
    + destruct (return_book_failure _ _ _ _ _ Hr)
        as [->|(_ & l & Hv & Hl & Hst & ->)]; [by left|].
      do 4 right. exists lid, now, l. split_and!; [done..|]. by left.
    + destruct (return_book_inv _ _ _ _ _ Hr) as (l & Hv & Hl & Hst).
      do 4 right. exists lid, now, l. split_and!; [done..|].
      rewrite (return_book_run _ _ now _ Hv Hl Hst) in Hr. cbv zeta in Hr.
      destruct (is_valid_field _ _) as [bs|]; simplify_eq; [|by left].
      destruct (db s "book" !! ObjectId bs) as [b|] eqn:Hb; simplify_eq;
        [|by left].
      destruct (inc_field _ _ b) as [b'|] eqn:Hinc; simplify_eq.
      right. by exists bs, b, b'.
  - by left.
Qed.

Lemma record_kept_refl c d : record_kept c d d.
Proof. unfold record_kept. by repeat case_decide. Qed.

Lemma record_kept_trans c d1 d2 d3 :
  record_kept c d1 d2 → record_kept c d2 d3 → record_kept c d1 d3.
Proof.
  unfold record_kept. repeat case_decide.
  - intros H12 H23 f Hf. by rewrite H23, H12.
  - intros [H12 Hr12] [H23 Hr23]. split.
    + intros f Hf1 Hf2. by rewrite H23, H12.
    + intros Hst. specialize (Hr12 Hst). subst d2. by apply Hr23.
  - congruence.
Qed.

Lemma store_kept_refl s : store_kept s s.
Proof. intros c k d Hd. exists d. split; [done|apply record_kept_refl]. Qed.

Lemma store_kept_trans s1 s2 s3 :
  store_kept s1 s2 → store_kept s2 s3 → store_kept s1 s3.
Proof.
  intros H12 H23 c k d Hd.
  destruct (H12 c k d Hd) as (d2 & Hd2 & Hk2).
  destruct (H23 c k d2 Hd2) as (d3 & Hd3 & Hk3).
  exists d3. split; [done|]. by eapply record_kept_trans.
Qed.

Lemma store_kept_insert s c0 g d0 :
  db s c0 !! g = None → store_kept s (<[c0 := <[g := d0]> (db s c0)]> s).
Proof.
  intros Hg c k d Hd. exists d. split; [|apply record_kept_refl].
  destruct (decide (c0 = c)) as [<-|Hc]; [|by rewrite db_insert_ne].
  rewrite db_insert_eq, lookup_insert_ne; [done|]. congruence.
Qed.

Lemma store_kept_update s c0 k0 d0 d0' :
  db s c0 !! k0 = Some d0 → record_kept c0 d0 d0' →
  store_kept s (<[c0 := <[k0 := d0']> (db s c0)]> s).
Proof.
  intros Hk0 Hkept c k d Hd.
  destruct (decide (c0 = c)) as [<-|Hc].
  - rewrite db_insert_eq. destruct (decide (k0 = k)) as [<-|Hk].
    + exists d0'. rewrite lookup_insert_eq. split; [done|]. congruence.
    + exists d. rewrite lookup_insert_ne by done.
      split; [done|apply record_kept_refl].
  - exists d. rewrite db_insert_ne by done.
    split; [done|apply record_kept_refl].
Qed.

Lemma inc_field_other f delta (b b' : doc) f' :
  inc_field f delta b = Some b' → f' ≠ f → b' !! f' = b !! f'.
Proof.
  unfold inc_field. intros Hinc Hf.
  repeat case_match; simplify_eq; by rewrite lookup_insert_ne.
Qed.

(** One request keeps every record, up to what [record_kept] allows. *)
Lemma handle_kept r s :
  store_kept s (handle is_valid ObjectId oid_str isoformat r s).
Proof.
  destruct (handle_shape r s)
    as [->|[(p & g & Hg & ->)|[(p & g & Hg & ->)
       |[(p & now & g & b & m & _ & Hb & _ & _ & Hg & Hs')
        |(lid & now & l & _ & Hl & Hst & Hs')]]]]; cbv zeta in *.
  - apply store_kept_refl.
  - by apply store_kept_insert.
  - by apply store_kept_insert.
  - eapply store_kept_trans; [by apply (store_kept_insert s "loan" g)|].
    destruct Hs' as [[_ ->]|(n & Hca & _ & ->)]; [apply store_kept_refl|].
    set (s_loan := <["loan" := _]> s).
    assert (db s_loan "book" = db s "book") as Hbooks
      by (unfold s_loan; by rewrite db_insert_ne).
    rewrite <-Hbooks in Hb |- *.
    apply (store_kept_update s_loan "book" _ b _ Hb).
    intros f Hf. by rewrite lookup_insert_ne.
  - eapply store_kept_trans.
    { apply (store_kept_update s "loan" (ObjectId lid) l
               (returned_fields now ∪ l) Hl).
      split; [|done]. intros f Hf1 Hf2.
      rewrite lookup_union_r; [done|]. by apply returned_fields_other. }
    fold (mark_returned s (ObjectId lid) l now).
    destruct Hs' as [->|(bs & b & b' & _ & Hb & Hinc & ->)];
      [apply store_kept_refl|].
    set (s_l := mark_returned s (ObjectId lid) l now).
    assert (db s_l "book" = db s "book") as Hbooks
      by (unfold s_l, mark_returned; by rewrite db_insert_ne).
    rewrite <-Hbooks in Hb |- *.
    apply (store_kept_update s_l "book" _ b _ Hb).
    intros f Hf. by eapply inc_field_other.
Qed.

Lemma run_requests_kept rs s :
  store_kept s (run_requests is_valid ObjectId oid_str isoformat rs s).
Proof.
  revert s. induction rs as [|r rs IH]; intros s; [apply store_kept_refl|].
  cbn. eapply store_kept_trans; [apply handle_kept|apply IH].
Qed.

(** X8: no sequence of requests deletes a document: a key present in a
    collection stays present. *)
Theorem documents_never_deleted rs s c k :
  is_Some (db s c !! k) →
  is_Some (db (run_requests is_valid ObjectId oid_str isoformat rs s) c !! k).
Proof.
  intros [d Hd]. destruct (run_requests_kept rs s c k d Hd) as (d' & Hd' & _).
  eauto.
Qed.

(** X9: "returned" is final: once a loan's status is "returned", no sequence
    of requests changes any field of its record. *)
Theorem returned_loan_final rs s k l :
  db s "loan" !! k = Some l →
  l !! "status" = Some (VStr "returned") →
  db (run_requests is_valid ObjectId oid_str isoformat rs s) "loan" !! k = Some l.
Proof.
  intros Hl Hst.
  destruct (run_requests_kept rs s "loan" k l Hl) as (l' & Hl' & [_ Hfinal]).
  by rewrite Hl', (Hfinal Hst).
Qed.

(** X10: no sequence of requests changes a loan's [book_id], [member_id],
    [loan_date] or [due_date], nor any field other than [status] and
    [return_date]. *)
Theorem loan_fields_fixed rs s k l f :
  db s "loan" !! k = Some l →
  f ≠ "status" → f ≠ "return_date" →
  db (run_requests is_valid ObjectId oid_str isoformat rs s) "loan" !! k
    ≫= (.!! f) = l !! f.
Proof.
  intros Hl Hf1 Hf2.
  destruct (run_requests_kept rs s "loan" k l Hl) as (l' & Hl' & [Hfields _]).
  rewrite Hl'. cbn. by apply Hfields.
Qed.

(** X11: no sequence of requests changes a field of a book other than
    [copies_available], and none changes a member record at all. *)
Theorem catalog_fields_fixed rs s k :
  let s' := run_requests is_valid ObjectId oid_str isoformat rs s in
  (∀ b f, db s "book" !! k = Some b → f ≠ "copies_available" →
          db s' "book" !! k ≫= (.!! f) = b !! f)
  ∧ (∀ m, db s "member" !! k = Some m → db s' "member" !! k = Some m).
Proof.
  split.
  - intros b f Hb Hf.
    destruct (run_requests_kept rs s "book" k b Hb) as (b' & Hb' & Hfields).
    rewrite Hb'. cbn. by apply Hfields.
  - intros m Hm.
    destruct (run_requests_kept rs s "member" k m Hm) as (m' & Hm' & Heq).
    rewrite Hm'. f_equal. exact Heq.
Qed.

(** ** Beyond the claims: what holds in every store the service reaches *)

(** X12: along every run of the service a loan is in one of two states:
    status "borrowed" with no [return_date], or status "returned" with a
    [return_date]; no request ever writes the status "overdue". *)
Theorem loan_status_along_runs s :
  reachable is_valid ObjectId oid_str isoformat any_request s →
  ∀ k l, db s "loan" !! k = Some l → loan_state_ok l.
Proof.
  induction 1 as [|s r Hs IH _]; intros k l Hl.
  { by rewrite db_empty, lookup_empty in Hl. }
  destruct (handle_loans r s)
    as [Heq|[(g & p & now & due & _ & Heq)|(k0 & l0 & now & _ & _ & Heq)]];
    rewrite Heq in Hl.
  - by eapply IH.
  - destruct (decide (g = k)) as [->|Hne].
    + rewrite lookup_insert_eq in Hl. injection Hl as <-. left.
      split; [apply loan_data_status|apply loan_data_return_date].
    + rewrite lookup_insert_ne in Hl by done. by eapply IH.
  - destruct (decide (k0 = k)) as [->|Hne].
    + rewrite lookup_insert_eq in Hl. injection Hl as <-. right. split.
      * apply lookup_union_Some_l, returned_fields_status.
      * exists now. apply lookup_union_Some_l, returned_fields_return_date.
    + rewrite lookup_insert_ne in Hl by done. by eapply IH.
Qed.

Lemma loan_refs_mono s s' l :
  store_kept s s' →
  loan_refs_ok is_valid ObjectId s l → loan_refs_ok is_valid ObjectId s' l.
Proof.
  intros Hkept (bs & ms & Hbid & Hvb & [b Hb] & Hmid & Hvm & [m Hm]).
  destruct (Hkept _ _ _ Hb) as (b' & Hb' & _).
  destruct (Hkept _ _ _ Hm) as (m' & Hm' & _).
  exists bs, ms. split_and!; eauto.
Qed.

Lemma loan_refs_fields s l l' :
  l' !! "book_id" = l !! "book_id" →
  l' !! "member_id" = l !! "member_id" →
  loan_refs_ok is_valid ObjectId s l → loan_refs_ok is_valid ObjectId s l'.
Proof.
  intros Hb Hm (bs & ms & ?). exists bs, ms. by rewrite Hb, Hm.
Qed.

(** The loan collection after one request, with what is known of a new
    loan. *)
Lemma handle_loans_refs r s :
  let s' := handle is_valid ObjectId oid_str isoformat r s in
  db s' "loan" = db s "loan"
  ∨ (∃ g l, db s "loan" !! g = None ∧
            loan_refs_ok is_valid ObjectId s l ∧
            db s' "loan" = <[g := l]> (db s "loan"))
  ∨ (∃ k l now, db s "loan" !! k = Some l ∧
                db s' "loan" = <[k := returned_fields now ∪ l]> (db s "loan")).
Proof.
  destruct (handle_shape r s)
    as [->|[(p & g & Hg & ->)|[(p & g & Hg & ->)
       |[(p & now & g & b & m & Hvb & Hb & Hvm & Hm & Hg & Hs')
        |(lid & now & l & _ & Hl & Hst & Hs')]]]]; cbv zeta in *.
  - by left.
  - left. by rewrite db_insert_ne.
  - left. by rewrite db_insert_ne.
  - right; left.
    exists g, (loan_data isoformat p now (now + days p * US_PER_DAY)).
    split; [done|]. split.
    + exists (book_id p), (member_id p).
      split_and!; [reflexivity|done|by exists b|reflexivity|done|by exists m].
    + destruct Hs' as [[_ ->]|(n & _ & _ & ->)];
        rewrite ?db_insert_ne by done; by rewrite db_insert_eq.
  - right; right. exists (ObjectId lid), l, now. split; [done|].
    unfold mark_returned in Hs'.
    destruct Hs' as [->|(bs & b & b' & _ & _ & _ & ->)];
      rewrite ?db_insert_ne by done; by rewrite db_insert_eq.
Qed.

Lemma reachable_loan_refs s :
  reachable is_valid ObjectId oid_str isoformat any_request s →
  ∀ k l, db s "loan" !! k = Some l → loan_refs_ok is_valid ObjectId s l.
Proof.
  induction 1 as [|s r Hs IH _]; intros k l Hl.
  { by rewrite db_empty, lookup_empty in Hl. }
  pose proof (handle_kept r s) as Hkept.
  destruct (handle_loans_refs r s)
    as [Heq|[(g & l0 & _ & Hrefs & Heq)|(k0 & l0 & now & Hl0 & Heq)]];
    rewrite Heq in Hl.
  - eapply loan_refs_mono; [done|]. by eapply IH.
  - destruct (decide (g = k)) as [->|Hne].
    + rewrite lookup_insert_eq in Hl. injection Hl as <-.
      by eapply loan_refs_mono.
    + rewrite lookup_insert_ne in Hl by done.
      eapply loan_refs_mono; [done|]. by eapply IH.
  - destruct (decide (k0 = k)) as [->|Hne].
    + rewrite lookup_insert_eq in Hl. injection Hl as <-.
      eapply loan_refs_mono; [done|].
      eapply loan_refs_fields; [..|by eapply IH];
        (rewrite lookup_union_r; [done|]; by apply returned_fields_other).
    + rewrite lookup_insert_ne in Hl by done.
      eapply loan_refs_mono; [done|]. by eapply IH.
Qed.

(** X13: along every run of the service every loan record names, by
    well-formed identifiers, a book and a member that are in the store. *)
Theorem loans_refer_to_records s k l :
  reachable is_valid ObjectId oid_str isoformat any_request s →
  db s "loan" !! k = Some l →
  ∃ bs ms b m,
    l !! "book_id" = Some (VStr bs) ∧ is_valid bs = true ∧
    db s "book" !! ObjectId bs = Some b ∧
    l !! "member_id" = Some (VStr ms) ∧ is_valid ms = true ∧
    db s "member" !! ObjectId ms = Some m.
Proof.
  intros Hs Hl.
  destruct (reachable_loan_refs s Hs k l Hl)
    as (bs & ms & Hbid & Hvb & [b Hb] & Hmid & Hvm & [m Hm]).
  by exists bs, ms, b, m.
Qed.

Lemma loan_refs_book s l :
  loan_refs_ok is_valid ObjectId s l →
  ∃ bs b, is_valid_field is_valid (l !! "book_id") = Some bs ∧
          db s "book" !! ObjectId bs = Some b.
Proof.
  intros (bs & ms & Hbid & Hvb & [b Hb] & _). exists bs, b.
  split; [|done]. unfold is_valid_field. by rewrite Hbid, Hvb.
Qed.

Lemma ledger_balance_ext s s' :
  db s' "book" = db s "book" → db s' "loan" = db s "loan" →
  ledger_balance is_valid ObjectId s → ledger_balance is_valid ObjectId s'.
Proof.
  intros Hb Hl Hbal. unfold ledger_balance, outstanding. by rewrite Hb, Hl.
Qed.

Lemma ledger_balance_add_book s payload gen :
  db s "book" !! gen = None →
  (∀ k l, db s "loan" !! k = Some l → loan_refs_ok is_valid ObjectId s l) →
  ledger_balance is_valid ObjectId s →
  ledger_balance is_valid ObjectId
    (<["book" := <[gen := <["copies_available" := VInt (copies_total payload)]>
                           (BookIn_model_dump payload)]> (db s "book")]> s).
Proof.
  intros Hg Hrefs Hbal k b. rewrite db_insert_eq. unfold outstanding.
  rewrite db_insert_ne by done. destruct (decide (gen = k)) as [<-|Hne].
  - rewrite lookup_insert_eq. intros [= <-].
    exists (copies_total payload), (copies_total payload).
    split_and!; [apply lookup_insert_eq|reflexivity|].
    rewrite loans_out_none; [lia|]. intros k l Hl.
    apply not_true_is_false. rewrite borrows_true.
    intros [_ (bs & Hbs & Hk)].
    destruct (loan_refs_book _ _ (Hrefs k l Hl)) as (bs' & b' & Hbs' & Hb').
    congruence.
  - rewrite lookup_insert_ne by done. apply Hbal.
Qed.

Lemma ledger_balance_create_loan s payload now due gen b n :
  is_valid (book_id payload) = true →
  db s "book" !! ObjectId (book_id payload) = Some b →
  b !! "copies_available" = Some (VInt n) →
  db s "loan" !! gen = None →
  ledger_balance is_valid ObjectId s →
  ledger_balance is_valid ObjectId
    (<["book" := <[ObjectId (book_id payload)
                   := <["copies_available" := VInt (n - 1)]> b]> (db s "book")]>
       (<["loan" := <[gen := loan_data isoformat payload now due]>
                      (db s "loan")]> s)).
Proof.
  intros Hvb Hb Hca Hg Hbal.
  set (ld := loan_data isoformat payload now due).
  assert (Hbid : is_valid_field is_valid (ld !! "book_id") = Some (book_id payload)).
  { unfold ld. rewrite loan_data_book_id. cbn. by rewrite Hvb. }
  assert (Hst : ld !! "status" ≠ Some (VStr "returned")).
  { unfold ld. by rewrite loan_data_status. }
  intros k b1. rewrite db_insert_eq. unfold outstanding.
  rewrite db_insert_ne, db_insert_eq by done.
  rewrite loans_out_insert_None by done.
  destruct (decide (ObjectId (book_id payload) = k)) as [<-|Hne].
  - rewrite lookup_insert_eq. intros [= <-].
    destruct (Hbal _ _ Hb) as (a & t & Ha & Ht & Hsum).
    assert (a = n) as -> by congruence.
    exists (n - 1), t. split_and!; [apply lookup_insert_eq| |].
    { by rewrite lookup_insert_ne. }
    rewrite (proj2 (borrows_true _ ld)) by eauto.
    unfold outstanding in Hsum. lia.
  - rewrite lookup_insert_ne by done. intros Hb1.
    destruct (Hbal _ _ Hb1) as (a & t & Ha & Ht & Hsum).
    exists a, t. split_and!; [done..|].
    assert (borrows is_valid ObjectId k ld = false) as ->.
    { apply not_true_is_false. rewrite borrows_true.
      intros [_ (bs & Hbs & Hk)]. congruence. }
    exact Hsum.
Qed.

Lemma ledger_balance_return_book s k l now bs b a :
  db s "loan" !! k = Some l →
  l !! "status" ≠ Some (VStr "returned") →
  is_valid_field is_valid (l !! "book_id") = Some bs →
  db s "book" !! ObjectId bs = Some b →
  b !! "copies_available" = Some (VInt a) →
  ledger_balance is_valid ObjectId s →
  ledger_balance is_valid ObjectId
    (<["book" := <[ObjectId bs := <["copies_available" := VInt (a + 1)]> b]>
                   (db s "book")]> (mark_returned s k l now)).
Proof.
  intros Hl Hst Hbs Hb Hca Hbal k' b1.
  rewrite db_insert_eq. unfold outstanding, mark_returned.
  rewrite db_insert_ne, db_insert_eq by done.
  pose proof (loans_out_insert_Some (db s "loan") k l
                (returned_fields now ∪ l) k' Hl) as Hcount.
  rewrite borrows_returned in Hcount.
  destruct (decide (ObjectId bs = k')) as [<-|Hne].
  - rewrite lookup_insert_eq. intros [= <-].
    destruct (Hbal _ _ Hb) as (a0 & t & Ha & Ht & Hsum).
    assert (a0 = a) as -> by congruence.
    rewrite (proj2 (borrows_true _ l)) in Hcount by eauto.
    exists (a + 1), t. split_and!; [apply lookup_insert_eq| |].
    { by rewrite lookup_insert_ne. }
    unfold outstanding in Hsum. lia.
  - rewrite lookup_insert_ne by done. intros Hb1.
    destruct (Hbal _ _ Hb1) as (a0 & t & Ha & Ht & Hsum).
    assert (borrows is_valid ObjectId k' l = false) as Hno.
    { apply not_true_is_false. rewrite borrows_true.
      intros [_ (bs' & Hbs' & Hk)]. congruence. }
    rewrite Hno in Hcount.
    exists a0, t. split_and!; [done..|]. unfold outstanding in Hsum. lia.
Qed.

Lemma ledger_balance_step r s :
  (∀ k l, db s "loan" !! k = Some l → loan_refs_ok is_valid ObjectId s l) →
  ledger_balance is_valid ObjectId s →
  ledger_balance is_valid ObjectId
    (handle is_valid ObjectId oid_str isoformat r s).
Proof.
  intros Hrefs Hbal.
  destruct r as [p g|p g|p now g|lid now|st]; cbn [handle].
  - destruct (add_book_state s p g) as [->|[Hg ->]]; [done|].
    by apply ledger_balance_add_book.
  - destruct (add_member_state s p g) as [-> | ->]; [done|].
    eapply ledger_balance_ext; [..|exact Hbal]; by rewrite db_insert_ne.
  - destruct (create_loan is_valid ObjectId oid_str isoformat p now g s)
      as [s1 [e|resp]] eqn:Hc; cbn [fst].
    + destruct (create_loan_err _ _ _ _ _ _ Hc) as [->|(b & Hb & Hca & _)];
        [done|].
      destruct (Hbal _ _ Hb) as (a & t & Ha & _). congruence.
    + destruct (create_loan_inv _ _ _ _ _ _ Hc)
        as (b & n & m & Hvb & Hb & Hca & Hn & _ & _ & _ & _ & Hg & -> & _).
      by apply ledger_balance_create_loan.
  - assert (∀ l, is_valid lid = true →
                 db s "loan" !! ObjectId lid = Some l →
                 l !! "status" ≠ Some (VStr "returned") →
                 ledger_balance is_valid ObjectId
                   (return_book is_valid ObjectId lid now s).1) as Hrun.
    { intros l Hv Hl Hst. rewrite (return_book_run _ _ now _ Hv Hl Hst).
      cbv zeta.
      destruct (loan_refs_book _ _ (Hrefs _ _ Hl)) as (bs & b & Hbs & Hb).
      rewrite Hbs, Hb. destruct (Hbal _ _ Hb) as (a & t & Ha & _).
      unfold inc_field. rewrite Ha. cbn [fst].
      by apply ledger_balance_return_book. }
    destruct (return_book is_valid ObjectId lid now s)
      as [s1 [e|resp]] eqn:Hc; cbn [fst] in *.
    + destruct (return_book_err _ _ _ _ _ Hc) as [->|(l & Hv & Hl & Hst & _)];
        [done|]. by eapply Hrun.
    + destruct (return_book_inv _ _ _ _ _ Hc) as (l & Hv & Hl & Hst).
      by eapply Hrun.
  - done.
Qed.

(** X14: along every run of the service, whatever the requests, each book's
    [copies_available] plus the number of loans out on it equals its
    [copies_total]; so [copies_available] never exceeds [copies_total]. *)
Theorem copies_balance_along_runs s :
  reachable is_valid ObjectId oid_str isoformat any_request s →
  ∀ k b, db s "book" !! k = Some b →
    ∃ a t, b !! "copies_available" = Some (VInt a) ∧
           b !! "copies_total" = Some (VInt t) ∧
           a + outstanding is_valid ObjectId s k = t ∧ a ≤ t.
Proof.
  intros Hs.
  assert (ledger_balance is_valid ObjectId s) as Hbal.
  { induction Hs as [|s r Hs IH _].
    - intros k b. by rewrite db_empty, lookup_empty.
    - apply ledger_balance_step; [|done]. by apply reachable_loan_refs. }
  intros k b Hb. destruct (Hbal k b Hb) as (a & t & Ha & Ht & Hsum).
  exists a, t. split_and!; [done..|]. unfold outstanding in Hsum. lia.
Qed.

(** X15: along every run whose new books have [copies_total >= 0], each
    book has [0 <= copies_available <= copies_total], and the loans out on
    it never outnumber its copies. *)
Theorem copies_range_when_nonneg s k b :
  reachable is_valid ObjectId oid_str isoformat nonneg_copies s →
  db s "book" !! k = Some b →
  ∃ a t, b !! "copies_available" = Some (VInt a) ∧
         b !! "copies_total" = Some (VInt t) ∧
         0 ≤ a ≤ t ∧ 0 ≤ outstanding is_valid ObjectId s k ≤ t.
Proof.
  intros Hs Hb. destruct (reachable_copies_in_range s Hs) as [[Hinv _] _].
  destruct (Hinv k b Hb) as (a & t & Ha & Ht & Ha0 & Hsum).
  exists a, t. split_and!; [done..| | |]; unfold outstanding in *; lia.
Qed.

(** ** Beyond the claims: the listings *)

Lemma list_loans_all s status :
  status = None ∨ status = Some "" →
  list_loans oid_str status s =
    (s, inr ((λ kd : oid * doc, <["_id" := VStr (oid_str kd.1)]> kd.2)
             <$> map_to_list (db s "loan"))).
Proof.
  intros Hst. unfold list_loans, get_documents. unfold_M.
  assert ((match status with
           | Some st => if bool_decide (st = "") then ∅
                        else {[ "status" := VStr st ]}
           | None => ∅
           end : doc) = ∅) as -> by (by destruct Hst as [-> | ->]).
  rewrite map_filter_id; [done|].
  intros k d _. cbn. apply bool_decide_pack, map_empty_subseteq.
Qed.

(** X16: [list_loans] with no status, or with the empty string as status,
    returns every loan of the collection, each once and each with its [_id]
    as a string, and writes nothing. *)
Theorem list_loans_unfiltered s status :
  status = None ∨ status = Some "" →
  ∃ loans,
    list_loans oid_str status s = (s, inr loans) ∧
    length loans = size (db s "loan") ∧
    ∀ l, l ∈ loans ↔
         ∃ k d, db s "loan" !! k = Some d ∧
                l = <["_id" := VStr (oid_str k)]> d.
Proof.
  intros Hst. rewrite (list_loans_all s status Hst). eexists.
  split; [done|]. split.
  - by rewrite length_fmap, length_map_to_list.
  - intros l. rewrite list_elem_of_fmap. split.
    + intros ([k d] & -> & Hkd%elem_of_map_to_list). by exists k, d.
    + intros (k & d & Hd & ->). exists (k, d).
      split; [done|]. by apply elem_of_map_to_list.
Qed.

Lemma list_loans_status s st :
  st ≠ "" →
  list_loans oid_str (Some st) s =
    (s, inr ((λ kd : oid * doc, <["_id" := VStr (oid_str kd.1)]> kd.2)
             <$> map_to_list
                   (filter (λ kd : oid * doc,
                              bool_decide (({[ "status" := VStr st ]} : doc)
                                             ⊆ kd.2))
                           (db s "loan")))).
Proof.
  intros Hst. unfold list_loans, get_documents. unfold_M.
  by rewrite bool_decide_eq_false_2.
Qed.

Lemma list_loans_status_elem s st l :
  st ≠ "" →
  (∃ loans, list_loans oid_str (Some st) s = (s, inr loans) ∧ l ∈ loans)
  ↔ ∃ k d, db s "loan" !! k = Some d ∧
           d !! "status" = Some (VStr st) ∧
           l = <["_id" := VStr (oid_str k)]> d.
Proof.
  intros Hst. rewrite (list_loans_status s st Hst). split.
  - intros (loans & [= <-] & Hl). apply list_elem_of_fmap in Hl as ([k d] & -> & Hkd).
    apply elem_of_map_to_list, map_lookup_filter_Some in Hkd as [Hd Hm].
    cbn in Hm. apply bool_decide_unpack, map_singleton_subseteq_l in Hm.
    by exists k, d.
  - intros (k & d & Hd & Hs & ->). eexists. split; [done|].
    apply list_elem_of_fmap. exists (k, d). split; [done|].
    apply elem_of_map_to_list, map_lookup_filter_Some. split; [done|].
    cbn. by apply bool_decide_pack, map_singleton_subseteq_l.
Qed.


Lemma list_members_all s :
  list_members oid_str s =
    (s, inr ((λ kd : oid * doc, <["_id" := VStr (oid_str kd.1)]> kd.2)
             <$> map_to_list (db s "member"))).
Proof.
  unfold list_members, get_documents. unfold_M.
  rewrite map_filter_id; [done|].
  intros k d _. cbn. apply bool_decide_pack, map_empty_subseteq.
Qed.

(** X18: a member that [add_member] has stored is in the next
    [list_members], with the payload's fields and with [_id] equal to the
    identifier that [add_member] returned; the listing is one record longer
    than the collection was. *)
Theorem add_member_then_list_members s payload gen :
  db s "member" !! gen = None →
  ∃ s1 members,
    add_member oid_str payload gen s
      = (s1, inr {[ "id" := VStr (oid_str gen) ]}) ∧
    list_members oid_str s1 = (s1, inr members) ∧
    <["_id" := VStr (oid_str gen)]> (MemberIn_model_dump payload) ∈ members ∧
    length members = S (size (db s "member")).
Proof.
  intros Hg. rewrite (add_member_run _ _ _ Hg). eexists _, _.
  split; [done|]. rewrite list_members_all. split; [done|].
  rewrite db_insert_eq. split.
  - apply list_elem_of_fmap. exists (gen, MemberIn_model_dump payload).
    split; [done|]. apply elem_of_map_to_list, lookup_insert_eq.
  - by rewrite length_fmap, length_map_to_list, map_size_insert_None.
Qed.

Lemma listed_under_iff st id s :
  st ≠ "" →
  listed_under oid_str st id s ↔
  ∃ k d, db s "loan" !! k = Some d ∧
         d !! "status" = Some (VStr st) ∧ oid_str k = id.
Proof.
  intros Hst. unfold listed_under. split.
  - intros (loans & l & Hlist & Hl & Hid).
    destruct (proj1 (list_loans_status_elem s st l Hst))
      as (k & d & Hd & Hs & ->); [by exists loans|].
    rewrite lookup_insert_eq in Hid. injection Hid as Hid. by exists k, d.
  - intros (k & d & Hd & Hs & <-).
    destruct (proj2 (list_loans_status_elem s st
                       (<["_id" := VStr (oid_str k)]> d) Hst))
      as (loans & Hlist & Hl); [by exists k, d|].
    exists loans, (<["_id" := VStr (oid_str k)]> d).
    split_and!; [done..|apply lookup_insert_eq].
Qed.

(** [return_book] right after the [create_loan] that made the loan. *)
Lemma return_after_loan s s1 payload now gen resp now' :
  is_valid (oid_str gen) = true →
  ObjectId (oid_str gen) = gen →
  create_loan is_valid ObjectId oid_str isoformat payload now gen s
    = (s1, inr resp) →
  let ld := loan_data isoformat payload now (now + days payload * US_PER_DAY) in
  db s1 "loan" !! gen = Some ld ∧
  ∃ s2, return_book is_valid ObjectId (oid_str gen) now' s1
          = (s2, inr ok_response) ∧
        db s2 "loan" = <[gen := returned_fields now' ∪ ld]> (db s1 "loan").
Proof.
  intros Hgv Hgk Hloan. cbv zeta.
  destruct (create_loan_inv _ _ _ _ _ _ Hloan)
    as (b & n & m & Hvb & Hb & Hca & Hn & _ & _ & _ & _ & Hfresh & -> & ->).
  set (ld := loan_data isoformat payload now (now + days payload * US_PER_DAY)).
  set (s1 := <["book" := _]> _).
  assert (Hl1 : db s1 "loan" !! ObjectId (oid_str gen) = Some ld).
  { rewrite Hgk. unfold s1.
    rewrite db_insert_ne, db_insert_eq by done. apply lookup_insert_eq. }
  assert (Hst : ld !! "status" ≠ Some (VStr "returned")).
  { unfold ld. by rewrite loan_data_status. }
  split; [by rewrite <-Hgk|].
  pose proof (return_book_run s1 (oid_str gen) now' ld Hgv Hl1 Hst) as Hret.
  cbv zeta in Hret.
  assert (is_valid_field is_valid (ld !! "book_id") = Some (book_id payload))
    as Hbid.
  { unfold ld. rewrite loan_data_book_id. cbn. by rewrite Hvb. }
  rewrite Hbid in Hret.
  assert (db s1 "book" !! ObjectId (book_id payload)
          = Some (<["copies_available" := VInt (n - 1)]> b)) as Hb1.
  { unfold s1. rewrite db_insert_eq. apply lookup_insert_eq. }
  rewrite Hb1 in Hret. unfold inc_field in Hret.
  rewrite lookup_insert_eq in Hret.
  eexists. split; [exact Hret|].
  rewrite db_insert_ne by done. unfold mark_returned.
  by rewrite db_insert_eq, Hgk.
Qed.

(** X19: the listings follow a loan through its life.  Right after a
    successful [create_loan] the loan is listed under status "borrowed" and
    not under "returned"; a [return_book] on it then succeeds, after which it
    is listed under "returned" and no longer under "borrowed".  (Identifiers
    are told apart by their printed form.) *)
Theorem loan_listing_lifecycle s s1 payload now gen resp now' :
  Inj (=) (=) oid_str →
  is_valid (oid_str gen) = true →
  ObjectId (oid_str gen) = gen →
  create_loan is_valid ObjectId oid_str isoformat payload now gen s
    = (s1, inr resp) →
  listed_under oid_str "borrowed" (oid_str gen) s1 ∧
  ¬ listed_under oid_str "returned" (oid_str gen) s1 ∧
  ∃ s2,
    return_book is_valid ObjectId (oid_str gen) now' s1 = (s2, inr ok_response) ∧
    listed_under oid_str "returned" (oid_str gen) s2 ∧
    ¬ listed_under oid_str "borrowed" (oid_str gen) s2.
Proof.
  intros Hinj Hgv Hgk Hloan.
  destruct (return_after_loan s s1 payload now gen resp now' Hgv Hgk Hloan)
    as (Hl1 & s2 & Hret & Hl2). cbv zeta in *.
  set (ld := loan_data isoformat payload now (now + days payload * US_PER_DAY))
    in *.
  rewrite !listed_under_iff by done. split_and!.
  - exists gen, ld. split_and!; [done| |done]. apply loan_data_status.
  - intros (k & d & Hd & Hs & ->%Hinj).
    assert (d = ld) as -> by congruence.
    unfold ld in Hs. by rewrite loan_data_status in Hs.
  - exists s2. rewrite !listed_under_iff by done. split_and!; [done| |].
    + exists gen, (returned_fields now' ∪ ld). rewrite Hl2.
      split_and!; [apply lookup_insert_eq| |done].
      apply lookup_union_Some_l, returned_fields_status.
    + intros (k & d & Hd & Hs & ->%Hinj).
      rewrite Hl2, lookup_insert_eq in Hd. injection Hd as <-.
      by rewrite (lookup_union_Some_l _ _ _ _ (returned_fields_status now'))
        in Hs.
Qed.

(** X20: [add_book] checks for no duplicate: the same payload added twice,
    under two new identifiers, is stored twice, as two records equal in
    every field. *)
Theorem add_book_no_duplicate_check s payload g1 g2 :
  db s "book" !! g1 = None →
  db s "book" !! g2 = None →
  g1 ≠ g2 →
  ∃ s1 s2 b,
    add_book oid_str payload g1 s = (s1, inr {[ "id" := VStr (oid_str g1) ]}) ∧
    add_book oid_str payload g2 s1 = (s2, inr {[ "id" := VStr (oid_str g2) ]}) ∧
    db s2 "book" !! g1 = Some b ∧
    db s2 "book" !! g2 = Some b ∧
    size (db s2 "book") = S (S (size (db s "book"))).
Proof.
  intros Hg1 Hg2 Hne.
  set (b := <["copies_available" := VInt (copies_total payload)]>
              (BookIn_model_dump payload)).
  set (s1 := <["book" := <[g1 := b]> (db s "book")]> s).
  assert (db s1 "book" !! g2 = None) as Hg2'.
  { unfold s1. rewrite db_insert_eq. by rewrite lookup_insert_ne. }
  exists s1, (<["book" := <[g2 := b]> (db s1 "book")]> s1), b.
  split_and!.
  - by rewrite (add_book_run _ _ _ Hg1).
  - by rewrite (add_book_run _ _ _ Hg2').
  - rewrite db_insert_eq. unfold s1. rewrite db_insert_eq.
    rewrite lookup_insert_ne by done. apply lookup_insert_eq.
  - rewrite db_insert_eq. apply lookup_insert_eq.
  - rewrite db_insert_eq, map_size_insert_None by done.
    unfold s1. rewrite db_insert_eq. by rewrite map_size_insert_None.
Qed.

End Facts.

(** ** The run of [Sample] *)

Example s_loaned_book :
  db Sample.s_loaned "book" !! Sample.book1 = Some (Sample.dune_doc 0).
Proof. compute_done. Qed.

Example s_returned_book :
  db Sample.s_returned "book" !! Sample.book1 = Some (Sample.dune_doc 1).
Proof. compute_done. Qed.

Example s_loaned_due :
  db Sample.s_loaned "loan" !! Sample.loan1 ≫= (.!! "due_date")
    = Some (VStr "2024-01-08").
Proof. compute_done. Qed.

Lemma sample_reachable admitted :
  admitted (AddBook Sample.dune Sample.book1) →
  admitted (AddMember Sample.ann Sample.member1) →
  admitted (CreateLoan Sample.borrow Sample.noon Sample.loan1) →
  admitted (ReturnBook Sample.loan1 (Sample.noon + US_PER_DAY)) →
  reachable Sample.is_valid Sample.ObjectId Sample.oid_str Sample.isoformat
    admitted Sample.s_returned.
Proof.
  intros H1 H2 H3 H4.
  apply (reachable_step _ _ _ _ _ Sample.s_loaned _); [|exact H4].
  apply (reachable_step _ _ _ _ _ Sample.s_member _); [|exact H3].
  apply (reachable_step _ _ _ _ _ Sample.s_book _); [|exact H2].
  apply (reachable_step _ _ _ _ _ ∅ _); [|exact H1].
  apply reachable_empty.
Defined.

(** ** The claims at the run of [Sample] *)

Lemma create_loan_no_copies_witness :
  create_loan Sample.is_valid Sample.ObjectId Sample.oid_str Sample.isoformat
    (mkLoanIn Sample.book1 "no-such-member" 7) Sample.noon Sample.loan2
    Sample.s_loaned
  = (Sample.s_loaned, inl (HTTPException 400 "No copies available")).
Proof.
  apply (create_loan_no_copies Sample.is_valid Sample.ObjectId Sample.oid_str
           Sample.isoformat Sample.s_loaned Sample.book1 "no-such-member" 7
           Sample.noon Sample.loan2 (Sample.dune_doc 0) 0).
  - compute_done.
  - compute_done.
  - compute_done.
  - lia.
Defined.

Lemma loan_then_return_restores_witness :
  ∃ s2,
    return_book Sample.is_valid Sample.ObjectId Sample.loan1
      (Sample.noon + US_PER_DAY) Sample.s_loaned = (s2, inr ok_response)
    ∧ db Sample.s_loaned "book" !! Sample.book1 = Some (Sample.dune_doc 0)
    ∧ db s2 "book" = db Sample.s_member "book".
Proof.
  destruct (loan_then_return_restores Sample.is_valid Sample.ObjectId
              Sample.oid_str Sample.isoformat Sample.s_member Sample.s_loaned
              Sample.borrow Sample.noon Sample.loan1
              {[ "id" := VStr Sample.loan1 ]} (Sample.noon + US_PER_DAY))
    as (b & n & s2 & _ & _ & _ & _ & Hret & _ & Hbooks).
  - compute_done.
  - compute_done.
  - compute_done.
  - exists s2. split; [exact Hret|]. split; [compute_done|exact Hbooks].
Defined.

Lemma return_book_not_idempotent_witness :
  return_book Sample.is_valid Sample.ObjectId Sample.loan1
    (Sample.noon + 2 * US_PER_DAY) Sample.s_returned
  = (Sample.s_returned, inl (HTTPException 400 "Already returned")).
Proof.
  apply (proj2 (return_book_not_idempotent Sample.is_valid Sample.ObjectId
                  Sample.s_loaned Sample.loan1 (Sample.noon + US_PER_DAY)
                  (loan_data Sample.isoformat Sample.borrow Sample.noon
                     (Sample.noon + 7 * US_PER_DAY))
                  ltac:(compute_done) ltac:(compute_done))
           Sample.s_returned ok_response).
  compute_done.
Defined.

Lemma return_book_book_id_witness :
  (∃ s',
     return_book Sample.is_valid Sample.ObjectId Sample.loan2 Sample.noon
       Sample.s_stray = (s', inr ok_response)
     ∧ db s' "book" = db Sample.s_stray "book")
  ∧ (∃ s',
       return_book Sample.is_valid Sample.ObjectId Sample.loan1
         (Sample.noon + US_PER_DAY) Sample.s_loaned = (s', inr ok_response)
       ∧ db s' "book"
         = <[Sample.book1 := <["copies_available" := VInt 1]> (Sample.dune_doc 0)]>
             (db Sample.s_loaned "book")).
Proof.
  split.
  - destruct (proj1 (return_book_book_id Sample.is_valid Sample.ObjectId
                       Sample.s_stray Sample.loan2 Sample.noon Sample.stray_loan
                       ltac:(compute_done)
                       ltac:(compute_done)
                       ltac:(compute_done))
                ltac:(compute_done))
      as (s' & Hret & _ & _ & Hbooks).
    exists s'. split; [exact Hret|exact Hbooks].
  - destruct (proj2 (return_book_book_id Sample.is_valid Sample.ObjectId
                       Sample.s_loaned Sample.loan1 (Sample.noon + US_PER_DAY)
                       (loan_data Sample.isoformat Sample.borrow Sample.noon
                          (Sample.noon + 7 * US_PER_DAY))
                       ltac:(compute_done)
                       ltac:(compute_done)
                       ltac:(compute_done))
                Sample.book1 (Sample.dune_doc 0) 0
                ltac:(compute_done)
                ltac:(compute_done)
                ltac:(compute_done))
      as (s' & Hret & _ & _ & Hbooks).
    exists s'. split; [exact Hret|exact Hbooks].
Defined.

Lemma return_book_frame_witness :
  ∃ l l',
    db Sample.s_loaned "loan" !! Sample.loan1 = Some l
    ∧ db Sample.s_returned "loan" !! Sample.loan1 = Some l'
    ∧ l' !! "due_date" = l !! "due_date"
    ∧ db Sample.s_returned "member" = db Sample.s_loaned "member".
Proof.
  destruct (return_book_frame Sample.is_valid Sample.ObjectId
              Sample.s_loaned Sample.s_returned Sample.loan1
              (Sample.noon + US_PER_DAY) ok_response
              ltac:(compute_done))
    as (l & l' & Hl & Hl' & Hfields & _ & _ & _ & _ & Hcolls).
  exists l, l'. split; [exact Hl|]. split; [exact Hl'|]. split.
  - apply Hfields; discriminate.
  - apply Hcolls; discriminate.
Defined.

Lemma add_book_copies_available_witness :
  ∃ s' b,
    add_book Sample.oid_str Sample.dune Sample.book1 ∅
      = (s', inr {[ "id" := VStr Sample.book1 ]})
    ∧ db s' "book" !! Sample.book1 = Some b
    ∧ b !! "copies_total" = Some (VInt 1)
    ∧ b !! "copies_available" = Some (VInt 1).
Proof.
  apply (add_book_copies_available Sample.oid_str ∅ Sample.dune Sample.book1).
  compute_done.
Defined.

Lemma create_loan_dates_witness :
  ∃ l,
    db Sample.s_loaned "loan" !! Sample.loan1 = Some l
    ∧ l !! "loan_date" = Some (VTime Sample.noon)
    ∧ l !! "due_date" = Some (VStr "2024-01-08")
    ∧ l !! "status" = Some (VStr "borrowed").
Proof.
  assert (create_loan Sample.is_valid Sample.ObjectId Sample.oid_str
            Sample.isoformat (LoanIn_of_body Sample.book1 Sample.member1 (Some 7))
            Sample.noon Sample.loan1 Sample.s_member
          = (Sample.s_loaned, inr {[ "id" := VStr Sample.loan1 ]})) as Hloan.
  { compute_done. }
  destruct (create_loan_dates _ _ _ _ _ _ _ _ _ _ _ _ Hloan)
    as (l & Hl & Hdate & Hdue & Hst).
  exists l. split; [exact Hl|]. split; [exact Hdate|]. split; [|exact Hst].
  rewrite Hdue. compute_done.
Defined.

Lemma list_returned_have_return_date_witness :
  ∃ loans,
    list_loans Sample.oid_str (Some "returned") Sample.s_returned
      = (Sample.s_returned, inr loans)
    ∧ length loans = 1%nat
    ∧ ∀ l, l ∈ loans →
           l !! "status" = Some (VStr "returned")
           ∧ ∃ t, l !! "return_date" = Some (VTime t).
Proof.
  destruct (proj2 (list_returned_have_return_date Sample.is_valid
                     Sample.ObjectId Sample.oid_str Sample.isoformat
                     Sample.s_returned (sample_reachable any_request I I I I)))
    as (loans & Hlist & Hloans).
  exists loans. split; [exact Hlist|]. split; [|exact Hloans].
  assert (length (match (list_loans Sample.oid_str (Some "returned")
                           Sample.s_returned).2 with
                  | inr ls => ls
                  | inl _ => []
                  end) = 1%nat) as Hlen by compute_done.
  rewrite Hlist in Hlen. exact Hlen.
Defined.

(** On the run of [Sample], whose one book is created with one copy, the
    range holds in every store. *)
Example sample_copies_in_range :
  ∀ k b, db Sample.s_returned "book" !! k = Some b → copies_in_range b.
Proof.
  apply (reachable_copies_in_range Sample.is_valid Sample.ObjectId
           Sample.oid_str Sample.isoformat).
  apply sample_reachable; cbn; [lia|done..].
Qed.

(** ** Where the handlers take what [schemas.py] refuses *)

(** C3: [add_book] takes a body with [copies_total = -1]: [BookIn] puts no
    bound on the field, where [schemas.Book] declares [ge=0].  The book is
    stored with [copies_available = -1], so [0 <= copies_available <=
    copies_total] does not hold after this creation, in a store the service
    reaches by one request. *)
Theorem add_book_negative_copies :
  let s' := Sample.run (AddBook Sample.minus_one_copy Sample.book1) ∅ in
  reachable Sample.is_valid Sample.ObjectId Sample.oid_str Sample.isoformat
    any_request s'
  ∧ add_book Sample.oid_str Sample.minus_one_copy Sample.book1 ∅
    = (s', inr {[ "id" := VStr Sample.book1 ]})
  ∧ ∃ b, db s' "book" !! Sample.book1 = Some b
         ∧ b !! "copies_available" = Some (VInt (-1))
         ∧ ¬ copies_in_range b.
Proof.
  cbv zeta. split_and!.
  - apply (reachable_step _ _ _ _ _ ∅ _); [apply reachable_empty|exact I].
  - compute_done.
  - exists (<["copies_available" := VInt (-1)]>
              (BookIn_model_dump Sample.minus_one_copy)).
    split; [compute_done|]. split; [apply lookup_insert_eq|].
    intros (a & t & Ha & _ & Hrange). rewrite lookup_insert_eq in Ha.
    injection Ha as <-. lia.
Qed.

(** C6: [add_member] takes the email "not-an-email": [MemberIn] types the
    field as a plain string, where [schemas.Member] declares [EmailStr].  The
    request is answered with the new identifier and the member is stored with
    that email. *)
Theorem add_member_not_an_email :
  ∃ s' m,
    add_member Sample.oid_str Sample.no_email Sample.member1 ∅
      = (s', inr {[ "id" := VStr Sample.member1 ]})
    ∧ db s' "member" !! Sample.member1 = Some m
    ∧ m !! "email" = Some (VStr "not-an-email").
Proof.
  apply (add_member_any_email Sample.oid_str ∅ Sample.no_email Sample.member1).
  compute_done.
Qed.

(** ** The further properties at the run of [Sample] *)

Lemma create_loan_book_lookup_error_witness :
  create_loan Sample.is_valid Sample.ObjectId Sample.oid_str Sample.isoformat
    (mkLoanIn "not-an-id" Sample.member1 7) Sample.noon Sample.loan1
    Sample.s_member
  = (Sample.s_member, inl (HTTPException 400 "Invalid id"))
  ∧ create_loan Sample.is_valid Sample.ObjectId Sample.oid_str Sample.isoformat
      (mkLoanIn Sample.nobody Sample.member1 7) Sample.noon Sample.loan1
      Sample.s_member
    = (Sample.s_member, inl (HTTPException 404 "book not found")).
Proof.
  split.
  - apply (create_loan_book_lookup_error Sample.is_valid Sample.ObjectId
             Sample.oid_str Sample.isoformat Sample.s_member
             (mkLoanIn "not-an-id" Sample.member1 7)).
    intros _. compute_done.
  - apply (create_loan_book_lookup_error Sample.is_valid Sample.ObjectId
             Sample.oid_str Sample.isoformat Sample.s_member
             (mkLoanIn Sample.nobody Sample.member1 7)).
    intros _. compute_done.
Defined.

Lemma create_loan_member_lookup_error_witness :
  create_loan Sample.is_valid Sample.ObjectId Sample.oid_str Sample.isoformat
    (mkLoanIn Sample.book1 Sample.nobody 7) Sample.noon Sample.loan1
    Sample.s_member
  = (Sample.s_member, inl (HTTPException 404 "member not found")).
Proof.
  apply (create_loan_member_lookup_error Sample.is_valid Sample.ObjectId
           Sample.oid_str Sample.isoformat Sample.s_member
           (mkLoanIn Sample.book1 Sample.nobody 7) Sample.noon Sample.loan1
           (Sample.dune_doc 1) 1).
  - compute_done.
  - compute_done.
  - compute_done.
  - lia.
  - intros _. compute_done.
Defined.

Lemma create_loan_days_overflow_witness :
  create_loan Sample.is_valid Sample.ObjectId Sample.oid_str Sample.isoformat
    Sample.forever Sample.noon Sample.loan1 Sample.s_member
  = (Sample.s_member, inl OverflowError).
Proof.
  apply (create_loan_days_overflow Sample.is_valid Sample.ObjectId
           Sample.oid_str Sample.isoformat Sample.s_member Sample.forever
           Sample.noon Sample.loan1 (Sample.dune_doc 1) 1
           (MemberIn_model_dump Sample.ann)).
  - compute_done.
  - compute_done.
  - compute_done.
  - lia.
  - compute_done.
  - compute_done.
  - intros [Hdays _]. cbn in Hdays. lia.
Defined.

Lemma create_loan_succeeds_iff_witness :
  ∃ s1,
    create_loan Sample.is_valid Sample.ObjectId Sample.oid_str Sample.isoformat
      Sample.borrow Sample.noon Sample.loan1 Sample.s_member
    = (s1, inr {[ "id" := VStr Sample.loan1 ]}).
Proof.
  apply (proj1 (create_loan_succeeds_iff Sample.is_valid Sample.ObjectId
                  Sample.oid_str Sample.isoformat Sample.s_member
                  Sample.borrow Sample.noon Sample.loan1)).
  split; [compute_done|]. split.
  { exists (Sample.dune_doc 1), 1. split; [compute_done|].
    split; [compute_done|lia]. }
  split; [compute_done|]. split; [compute_done|].
  split; [compute_done|]. split; [compute_done|compute_done].
Defined.


Lemma http_error_writes_nothing_witness :
  (create_loan Sample.is_valid Sample.ObjectId Sample.oid_str Sample.isoformat
     Sample.borrow Sample.noon Sample.loan2 Sample.s_loaned).1
  = Sample.s_loaned
  ∧ (return_book Sample.is_valid Sample.ObjectId Sample.loan1
       (Sample.noon + 2 * US_PER_DAY) Sample.s_returned).1
    = Sample.s_returned.
Proof.
  split.
  - apply (proj1 (http_error_writes_nothing Sample.is_valid Sample.ObjectId
                    Sample.oid_str Sample.isoformat Sample.s_loaned
                    400 "No copies available")).
    compute_done.
  - apply (proj2 (http_error_writes_nothing Sample.is_valid Sample.ObjectId
                    Sample.oid_str Sample.isoformat Sample.s_returned
                    400 "Already returned")).
    compute_done.
Defined.

Lemma return_book_lookup_error_witness :
  return_book Sample.is_valid Sample.ObjectId "not-an-id" Sample.noon
    Sample.s_loaned
  = (Sample.s_loaned, inl (HTTPException 400 "Invalid id"))
  ∧ return_book Sample.is_valid Sample.ObjectId Sample.loan2 Sample.noon
      Sample.s_loaned
    = (Sample.s_loaned, inl (HTTPException 404 "loan not found")).
Proof.
  split.
  - apply (return_book_lookup_error Sample.is_valid Sample.ObjectId
             Sample.s_loaned "not-an-id" Sample.noon).
    intros _. compute_done.
  - apply (return_book_lookup_error Sample.is_valid Sample.ObjectId
             Sample.s_loaned Sample.loan2 Sample.noon).
    intros _. compute_done.
Defined.

Lemma documents_never_deleted_witness :
  is_Some (db (run_requests Sample.is_valid Sample.ObjectId Sample.oid_str
                 Sample.isoformat Sample.after_book Sample.s_book)
              "book" !! Sample.book1).
Proof.
  apply (documents_never_deleted Sample.is_valid Sample.ObjectId
           Sample.oid_str Sample.isoformat Sample.after_book Sample.s_book
           "book" Sample.book1).
  compute_done.
Defined.

Lemma returned_loan_final_witness :
  db (run_requests Sample.is_valid Sample.ObjectId Sample.oid_str
        Sample.isoformat Sample.afterwards Sample.s_returned)
     "loan" !! Sample.loan1
  = Some Sample.loan1_returned.
Proof.
  apply (returned_loan_final Sample.is_valid Sample.ObjectId Sample.oid_str
           Sample.isoformat Sample.afterwards Sample.s_returned Sample.loan1
           Sample.loan1_returned).
  - compute_done.
  - compute_done.
Defined.

Lemma loan_fields_fixed_witness :
  db (run_requests Sample.is_valid Sample.ObjectId Sample.oid_str
        Sample.isoformat Sample.afterwards Sample.s_loaned)
     "loan" !! Sample.loan1 ≫= (.!! "due_date")
  = Sample.loan1_doc !! "due_date".
Proof.
  apply (loan_fields_fixed Sample.is_valid Sample.ObjectId Sample.oid_str
           Sample.isoformat Sample.afterwards Sample.s_loaned Sample.loan1
           Sample.loan1_doc "due_date").
  - compute_done.
  - compute_done.
  - compute_done.
Defined.

Lemma catalog_fields_fixed_witness :
  db (run_requests Sample.is_valid Sample.ObjectId Sample.oid_str
        Sample.isoformat Sample.after_book Sample.s_book)
     "book" !! Sample.book1 ≫= (.!! "title")
  = Sample.dune_doc 1 !! "title".
Proof.
  apply (proj1 (catalog_fields_fixed Sample.is_valid Sample.ObjectId
                  Sample.oid_str Sample.isoformat Sample.after_book
                  Sample.s_book Sample.book1)).
  - compute_done.
  - compute_done.
Defined.

Lemma loan_status_along_runs_witness : loan_state_ok Sample.loan1_returned.
Proof.
  apply (loan_status_along_runs Sample.is_valid Sample.ObjectId Sample.oid_str
           Sample.isoformat Sample.s_returned
           (sample_reachable any_request I I I I) Sample.loan1).
  compute_done.
Defined.

Lemma loans_refer_to_records_witness :
  ∃ bs ms b m,
    Sample.loan1_returned !! "book_id" = Some (VStr bs)
    ∧ Sample.is_valid bs = true
    ∧ db Sample.s_returned "book" !! Sample.ObjectId bs = Some b
    ∧ Sample.loan1_returned !! "member_id" = Some (VStr ms)
    ∧ Sample.is_valid ms = true
    ∧ db Sample.s_returned "member" !! Sample.ObjectId ms = Some m.
Proof.
  apply (loans_refer_to_records Sample.is_valid Sample.ObjectId Sample.oid_str
           Sample.isoformat Sample.s_returned Sample.loan1
           Sample.loan1_returned (sample_reachable any_request I I I I)).
  compute_done.
Defined.

Lemma copies_balance_along_runs_witness :
  ∃ a t,
    Sample.dune_doc 0 !! "copies_available" = Some (VInt a)
    ∧ Sample.dune_doc 0 !! "copies_total" = Some (VInt t)
    ∧ a + outstanding Sample.is_valid Sample.ObjectId Sample.s_loaned
            Sample.book1 = t
    ∧ a ≤ t.
Proof.
  apply (copies_balance_along_runs Sample.is_valid Sample.ObjectId
           Sample.oid_str Sample.isoformat Sample.s_loaned).
  - apply (reachable_step _ _ _ _ _ Sample.s_member _); [|exact I].
    apply (reachable_step _ _ _ _ _ Sample.s_book _); [|exact I].
    apply (reachable_step _ _ _ _ _ ∅ _); [|exact I].
    apply reachable_empty.
  - compute_done.
Defined.

Lemma copies_range_when_nonneg_witness :
  ∃ a t,
    Sample.dune_doc 1 !! "copies_available" = Some (VInt a)
    ∧ Sample.dune_doc 1 !! "copies_total" = Some (VInt t)
    ∧ 0 ≤ a ≤ t
    ∧ 0 ≤ outstanding Sample.is_valid Sample.ObjectId Sample.s_returned
            Sample.book1 ≤ t.
Proof.
  apply (copies_range_when_nonneg Sample.is_valid Sample.ObjectId
           Sample.oid_str Sample.isoformat Sample.s_returned Sample.book1
           (Sample.dune_doc 1)
           (sample_reachable nonneg_copies ltac:(cbn; lia) I I I)).
  compute_done.
Defined.

Lemma list_loans_unfiltered_witness :
  ∃ loans,
    list_loans Sample.oid_str (Some "") Sample.s_returned
      = (Sample.s_returned, inr loans)
    ∧ length loans = size (db Sample.s_returned "loan")
    ∧ <["_id" := VStr Sample.loan1]> Sample.loan1_returned ∈ loans.
Proof.
  destruct (list_loans_unfiltered Sample.oid_str Sample.s_returned (Some "")
              (or_intror eq_refl))
    as (loans & Hlist & Hlen & Helem).
  exists loans. split; [exact Hlist|]. split; [exact Hlen|].
  apply Helem. exists Sample.loan1, Sample.loan1_returned.
  split; [compute_done|reflexivity].
Defined.


Lemma add_member_then_list_members_witness :
  ∃ s1 members,
    add_member Sample.oid_str Sample.ann Sample.member1 Sample.s_book
      = (s1, inr {[ "id" := VStr Sample.member1 ]})
    ∧ list_members Sample.oid_str s1 = (s1, inr members)
    ∧ <["_id" := VStr Sample.member1]> (MemberIn_model_dump Sample.ann)
        ∈ members
    ∧ length members = S (size (db Sample.s_book "member")).
Proof.
  apply (add_member_then_list_members Sample.oid_str Sample.s_book Sample.ann
           Sample.member1).
  compute_done.
Defined.

Lemma loan_listing_lifecycle_witness :
  listed_under Sample.oid_str "borrowed" Sample.loan1 Sample.s_loaned
  ∧ ¬ listed_under Sample.oid_str "returned" Sample.loan1 Sample.s_loaned
  ∧ ∃ s2,
      return_book Sample.is_valid Sample.ObjectId Sample.loan1
        (Sample.noon + US_PER_DAY) Sample.s_loaned = (s2, inr ok_response)
      ∧ listed_under Sample.oid_str "returned" Sample.loan1 s2
      ∧ ¬ listed_under Sample.oid_str "borrowed" Sample.loan1 s2.
Proof.
  apply (loan_listing_lifecycle Sample.is_valid Sample.ObjectId Sample.oid_str
           Sample.isoformat Sample.s_member Sample.s_loaned Sample.borrow
           Sample.noon Sample.loan1 ({[ "id" := VStr Sample.loan1 ]} : doc)
           (Sample.noon + US_PER_DAY)).
  - intros x y Hxy. exact Hxy.
  - compute_done.
  - compute_done.
  - compute_done.
Defined.

Lemma add_book_no_duplicate_check_witness :
  ∃ s1 s2 b,
    add_book Sample.oid_str Sample.dune Sample.book1 ∅
      = (s1, inr {[ "id" := VStr Sample.book1 ]})
    ∧ add_book Sample.oid_str Sample.dune Sample.nobody s1
      = (s2, inr {[ "id" := VStr Sample.nobody ]})
    ∧ db s2 "book" !! Sample.book1 = Some b
    ∧ db s2 "book" !! Sample.nobody = Some b
    ∧ size (db s2 "book") = S (S (size (db (∅ : gmap string (gmap string doc)) "book"))).
Proof.
  apply (add_book_no_duplicate_check Sample.oid_str ∅ Sample.dune
           Sample.book1 Sample.nobody).
  - compute_done.
  - compute_done.
  - compute_done.
Defined.
